(** * vk_optix_denoise: frame cadence and timeline hand-off of OptixDenoiserEngine

    A shallow embedding of the parts of [optix_denoiser.cpp] that decide
    when a frame is denoised, how the frame counter advances, and which
    command buffers and timeline-semaphore values a frame issues.

    Conventions of the embedding
    - [int] members ([m_frame], the integer settings) are [Z]; the only
      arithmetic on them is [m_frame++], guarded by [m_frame < maxFrames],
      and [%], C++'s truncating remainder, [Z.rem].
    - [uint64_t m_fenceValue] is a [Z] in [0, 2^64) and [++] wraps.
    - Vulkan/CUDA calls that hand work to a queue or to the application are
      recorded as [Event]s, in program order; commands recorded into a
      command buffer are [Command]s.
    - What the engine reads from outside (the camera manipulator, ImGui
      widgets, whether the build defines NVP_SUPPORTS_OPTIX7) is an input. *)

From Stdlib Require Import ZArith List Bool Lia.
Import ListNotations.
Local Open Scope Z_scope.

(** ** Machine integers *)

Definition INT_MIN : Z := - 2 ^ 31.
Definition INT_MAX : Z := 2 ^ 31 - 1.
Definition int_range (z : Z) : Prop := INT_MIN <= z <= INT_MAX.

Definition UINT64_MOD : Z := 2 ^ 64.
Definition wrap64 (z : Z) : Z := z mod UINT64_MOD.
Definition uint64_range (z : Z) : Prop := 0 <= z < UINT64_MOD.

(** [glm::vec2] holds [float]s. An integer-valued [float] is written as the
    integer it denotes. [float_of_uint32] is the conversion of a [uint32_t]
    to [float]: exact below 2^24, and above it rounded to 24 significant
    bits, to nearest with ties to the even significand. *)
Definition float_of_uint32 (n : Z) : Z :=
  if n <? 2 ^ 24 then n
  else
    let ulp := 2 ^ (Z.log2 n - 23) in
    let q := n / ulp in
    let r := n mod ulp in
    if 2 * r <? ulp then q * ulp
    else if ulp <? 2 * r then (q + 1) * ulp
    else if Z.even q then q * ulp else (q + 1) * ulp.

(** [static_cast<uint32_t>] of an integer-valued [float]: the value itself.
    The one such value out of range that [float_of_uint32] produces is 2^32
    (from sizes within 128 of the largest [uint32_t]), where C++ leaves the
    conversion undefined; it is taken modulo 2^32 here. *)
Definition uint32_of_float (x : Z) : Z := x mod 2 ^ 32.

(** ** Settings and the cadence predicates *)

(** [enum GbufferNames]. *)
Inductive GbufferNames : Type :=
| eGBufLdr
| eGBufResult
| eGBufAlbedo
| eGBufNormal
| eGbufDenoised.

(** [struct Settings]; [showAxis], [clearColor] and [envRotation] do not
    reach the cadence or the submission logic and are left out. *)
Record Settings : Type := mkSettings {
  maxFrames : Z;
  maxSamples : Z;
  maxDepth : Z;
  denoiseApply : bool;
  denoiseFirstFrame : bool;
  denoiseEveryNFrames : Z
}.

(** The member initialisers of [Settings]. *)
Definition default_settings : Settings :=
  {| maxFrames := 200000;
     maxSamples := 1;
     maxDepth := 5;
     denoiseApply := true;
     denoiseFirstFrame := false;
     denoiseEveryNFrames := 100 |}.

(** [bool needToDenoise() const], on [m_settings] and [m_frame].
    [denoiseEveryNFrames = 0] would divide by zero in C++; the slider keeps
    it in 1..500. *)
Definition needToDenoise (s : Settings) (m_frame : Z) : bool :=
  if denoiseApply s then
    if m_frame =? maxFrames s then true
    else if negb (denoiseFirstFrame s) && (m_frame =? 0) then false
    else if Z.rem m_frame (denoiseEveryNFrames s) =? 0 then true
    else false
  else false.

(** [bool showDenoisedImage() const]. *)
Definition showDenoisedImage (s : Settings) (m_frame : Z) : bool :=
  denoiseApply s
  && ((denoiseEveryNFrames s <=? m_frame)
      || denoiseFirstFrame s
      || (maxFrames s <=? m_frame)).

(** The five rules of the cadence policy as the specification words them,
    on [frameIndex mod everyNFrames]; compared with [needToDenoise] below. *)
Inductive CadenceRule : Type :=
| RuleDisabled
| RuleFinalFrame
| RuleSkipFirst
| RuleEveryN
| RuleOtherwise.

Definition cadence_rule (s : Settings) (frameIndex : Z) : CadenceRule :=
  if negb (denoiseApply s) then RuleDisabled
  else if frameIndex =? maxFrames s then RuleFinalFrame
  else if negb (denoiseFirstFrame s) && (frameIndex =? 0) then RuleSkipFirst
  else if frameIndex mod denoiseEveryNFrames s =? 0 then RuleEveryN
  else RuleOtherwise.

Definition rule_verdict (r : CadenceRule) : bool :=
  match r with
  | RuleFinalFrame | RuleEveryN => true
  | RuleDisabled | RuleSkipFirst | RuleOtherwise => false
  end.

Definition needsDenoise_rules (s : Settings) (frameIndex : Z) : bool :=
  rule_verdict (cadence_rule s frameIndex).

(** ** The engine *)

(** What the engine is built against and reads from outside.
    - [Camera]: what [updateFrame] reads from [CameraManip], the view matrix
      together with the field of view; [camera_differs ref cur] is the test
      [ref_cam_matrix != m || ref_fov != fov] (floating point, so it is not
      taken to be the negation of an equality).
    - [float]: the type of [m_blendFactor], passed on and never computed with.
    - [NVP_SUPPORTS_OPTIX7]: whether the build defines the macro. *)
Class Platform : Type := {
  Camera : Type;
  camera_differs : Camera -> Camera -> bool;
  float : Type;
  float_zero : float;
  NVP_SUPPORTS_OPTIX7 : bool
}.

(** [struct PushConstant], the fields [onRender] writes. *)
Record PushConstant : Type := mkPushConstant {
  pc_maxDepth : Z;
  pc_maxSamples : Z;
  pc_frame : Z
}.

(** The calls of [onRender] that record into a command buffer. *)
Inductive Command : Type :=
| CmdUpdateBuffer                               (* vkCmdUpdateBuffer(cmd, m_bFrameInfo, ..) *)
| CmdRaytraceScene (pc : PushConstant)          (* raytraceScene(cmd) *)
| CmdImageToBuffer (imgs : list GbufferNames)   (* copyImagesToCuda(cmd) *)
| CmdBufferToImage (img : GbufferNames)         (* copyCudaImagesToVulkan(cmd) *)
| CmdTonemap.                                   (* m_tonemapper->runCompute(cmd, ..) *)

(** The [stageMask] values the engine uses in its semaphore infos. *)
Inductive PipelineStage : Type :=
| STAGE_ALL_COMMANDS               (* VK_PIPELINE_STAGE_2_ALL_COMMANDS_BIT_KHR *)
| STAGE_COLOR_ATTACHMENT_OUTPUT.   (* VK_PIPELINE_STAGE_2_COLOR_ATTACHMENT_OUTPUT_BIT *)

(** [m_commandFrames[cycle].cmdBuffer[index]]. *)
Definition CmdBuffer : Type := (nat * nat)%type.

Section Model.
Context `{P : Platform}.

(** What leaves the engine, in program order. *)
Inductive Event : Type :=
| QueueSubmit2 (cmd : CmdBuffer) (recorded : list Command)
               (signalValue : Z) (signalStage : PipelineStage)
| DenoiseInvoke (waitValue signalValue : Z) (blendFactor : float)
| AddWaitSemaphore (value : Z) (waitStage : PipelineStage)
| PrependCommandBuffer (cmd : CmdBuffer) (recorded : list Command)
| CreateGBuffers (width height : Z)
| AllocateBuffers (width height : Z)
| UpdateComputeDescriptorSets (input output : GbufferNames)
| WriteRtxSet
| DeviceWaitIdle.

(** The members of [OptixDenoiserEngine] the modelled functions touch, and
    the function-local statics of [updateFrame] ([ref_camera]). *)
Record Engine : Type := mkEngine {
  m_settings : Settings;
  m_frame : Z;
  m_fenceValue : Z;
  m_blendFactor : float;
  m_viewSize : Z * Z;
  scene_valid : bool;
  ref_camera : Camera
}.

Definition set_settings (s : Settings) (e : Engine) : Engine :=
  mkEngine s (m_frame e) (m_fenceValue e) (m_blendFactor e) (m_viewSize e)
           (scene_valid e) (ref_camera e).
Definition set_frame (f : Z) (e : Engine) : Engine :=
  mkEngine (m_settings e) f (m_fenceValue e) (m_blendFactor e) (m_viewSize e)
           (scene_valid e) (ref_camera e).
Definition set_fenceValue (v : Z) (e : Engine) : Engine :=
  mkEngine (m_settings e) (m_frame e) v (m_blendFactor e) (m_viewSize e)
           (scene_valid e) (ref_camera e).
Definition set_blendFactor (b : float) (e : Engine) : Engine :=
  mkEngine (m_settings e) (m_frame e) (m_fenceValue e) b (m_viewSize e)
           (scene_valid e) (ref_camera e).
Definition set_viewSize (v : Z * Z) (e : Engine) : Engine :=
  mkEngine (m_settings e) (m_frame e) (m_fenceValue e) (m_blendFactor e) v
           (scene_valid e) (ref_camera e).
Definition set_scene_valid (b : bool) (e : Engine) : Engine :=
  mkEngine (m_settings e) (m_frame e) (m_fenceValue e) (m_blendFactor e)
           (m_viewSize e) b (ref_camera e).
Definition set_ref_camera (c : Camera) (e : Engine) : Engine :=
  mkEngine (m_settings e) (m_frame e) (m_fenceValue e) (m_blendFactor e)
           (m_viewSize e) (scene_valid e) c.

(** *** Member functions as state transformers that log their events *)

Definition Run (A : Type) : Type := Engine -> A * Engine * list Event.

Definition ret {A} (a : A) : Run A := fun e => (a, e, []).
Definition bind {A B} (m : Run A) (k : A -> Run B) : Run B :=
  fun e =>
    let '(a, e1, l1) := m e in
    let '(b, e2, l2) := k a e1 in
    (b, e2, l1 ++ l2).
Definition gets {A} (f : Engine -> A) : Run A := fun e => (f e, e, []).
Definition modify (f : Engine -> Engine) : Run unit := fun e => (tt, f e, []).
Definition emit (ev : Event) : Run unit := fun e => (tt, e, [ev]).
Definition when (b : bool) (m : Run unit) : Run unit := if b then m else ret tt.

Definition result {A} (r : A * Engine * list Event) : A := fst (fst r).
Definition state_of {A} (r : A * Engine * list Event) : Engine := snd (fst r).
Definition events_of {A} (r : A * Engine * list Event) : list Event := snd r.

Notation "x <- m ;; k" := (bind m (fun x => k))
  (at level 61, m at next level, right associativity).
Notation "m ;; k" := (bind m (fun _ => k))
  (at level 61, right associativity).

(** [void resetFrame() { m_frame = -1; }] *)
Definition resetFrame : Run unit := modify (set_frame (-1)).

(** [bool updateFrame()]; [cam] is what [CameraManip] returns on this call. *)
Definition updateFrame (cam : Camera) : Run bool :=
  ref <- gets ref_camera ;;
  when (camera_differs ref cam)
       (resetFrame ;; modify (set_ref_camera cam)) ;;
  frame <- gets m_frame ;;
  s <- gets m_settings ;;
  if maxFrames s <=? frame then ret false
  else modify (set_frame (frame + 1)) ;; ret true.

(** Modelled from the spec: [DenoiserOptix::denoiseImageBuffer], declared in
    denoiser.hpp, which is not among the sources. The specification gives
    the invocation as parameterised by the value V to wait on and the next
    value V+1 to emit on completion, with one increment of the counter
    consumed per invocation: the fence value is taken by reference, waited
    on, incremented (as a [uint64_t]) and the new value signalled. *)
Definition denoiseImageBuffer (blendFactor : float) : Run unit :=
  v <- gets m_fenceValue ;;
  let next := wrap64 (v + 1) in
  modify (set_fenceValue next) ;;
  emit (DenoiseInvoke v next blendFactor).

(** [void denoiseImage()]: its body is compiled only with OptiX. *)
Definition denoiseImage : Run unit :=
  if NVP_SUPPORTS_OPTIX7 then
    b <- gets m_blendFactor ;; denoiseImageBuffer b
  else ret tt.

(** [copyImagesToCuda(cmd)] and [copyCudaImagesToVulkan(cmd)]: what they
    record; their bodies too are compiled only with OptiX. *)
Definition copyImagesToCuda : list Command :=
  if NVP_SUPPORTS_OPTIX7
  then [CmdImageToBuffer [eGBufResult; eGBufAlbedo; eGBufNormal]] else [].
Definition copyCudaImagesToVulkan : list Command :=
  if NVP_SUPPORTS_OPTIX7 then [CmdBufferToImage eGbufDenoised] else [].

(** The block of [onRender] under [if(needToDenoise())]: submits the first
    command buffer with a signal, invokes the denoiser, registers the wait
    and returns the second command buffer with what is recorded in it. *)
Definition denoise_and_resume (cycle : nat) (recorded : list Command)
  : Run (CmdBuffer * list Command) :=
  let cmd := (cycle, 0%nat) in
  let recorded := recorded ++ copyImagesToCuda in
  v <- gets m_fenceValue ;;
  modify (set_fenceValue (wrap64 (v + 1))) ;;        (* .value = ++m_fenceValue *)
  signal <- gets m_fenceValue ;;
  emit (QueueSubmit2 cmd recorded signal STAGE_ALL_COMMANDS) ;;
  denoiseImage ;;
  wait <- gets m_fenceValue ;;                       (* .value = m_fenceValue *)
  emit (AddWaitSemaphore wait STAGE_COLOR_ATTACHMENT_OUTPUT) ;;
  ret ((cycle, 1%nat), copyCudaImagesToVulkan).

(** [void onRender(VkCommandBuffer)]; [cycle] is
    [m_app->getFrameCycleIndex()]. *)
Definition onRender (cycle : nat) (cam : Camera) : Run unit :=
  valid <- gets scene_valid ;;
  if negb valid then ret tt else
  continue <- updateFrame cam ;;
  if negb continue then ret tt else
  s <- gets m_settings ;;
  frame <- gets m_frame ;;
  let pc := mkPushConstant (maxDepth s) (maxSamples s) frame in
  let recorded := [CmdUpdateBuffer; CmdRaytraceScene pc] in
  target <- (if NVP_SUPPORTS_OPTIX7 && needToDenoise s frame
             then denoise_and_resume cycle recorded
             else ret ((cycle, 0%nat), recorded)) ;;
  let '(cmd, recorded) := target in
  emit (PrependCommandBuffer cmd (recorded ++ [CmdTonemap])).

(** [void writeRtxSet()]: returns at once when the scene is not valid;
    [WriteRtxSet] is the [vkUpdateDescriptorSets] it ends with. *)
Definition writeRtxSet : Run unit :=
  valid <- gets scene_valid ;;
  when valid (emit WriteRtxSet).

(** [void createGbuffers(const glm::vec2& size)]: [x] and [y] are the two
    [float]s of [size]; the G-buffers and the denoiser's buffers get the
    extent [vk_size] cast back from them. *)
Definition createGbuffers (x y : Z) : Run unit :=
  modify (set_viewSize (x, y)) ;;
  let width := uint32_of_float x in
  let height := uint32_of_float y in
  emit (CreateGBuffers width height) ;;
  when NVP_SUPPORTS_OPTIX7 (emit (AllocateBuffers width height)) ;;
  resetFrame.

(** [void onResize(uint32_t width, uint32_t height)]: the two sizes become
    the [glm::vec2] that [createGbuffers] takes. *)
Definition onResize (width height : Z) : Run unit :=
  createGbuffers (float_of_uint32 width) (float_of_uint32 height) ;;
  emit (UpdateComputeDescriptorSets eGBufResult eGBufLdr) ;;
  writeRtxSet.

(** [void onFileDrop(const char* filename)]: the extension of the file and,
    for a scene, whether it loaded ([m_scene->valid()] afterwards);
    [createScene] ends with [writeRtxSet()]. *)
Inductive DroppedFile : Type :=
| FileGltf (loaded : bool)
| FileHdr
| FileOther.

Definition onFileDrop (f : DroppedFile) : Run unit :=
  emit DeviceWaitIdle ;;
  match f with
  | FileGltf loaded => modify (set_scene_valid loaded) ;; writeRtxSet
  | FileHdr => resetFrame
  | FileOther => ret tt
  end ;;
  resetFrame.

(** What the user did to the widgets of [onUIRender] during one call:
    [Some v] when a slider or drag box changed its value to [v], [true] when a
    check box was clicked or a key was pressed. *)
Record UiInput : Type := mkUiInput {
  ui_keyM : bool;                 (* ImGui::IsKeyPressed(ImGuiKey_M) *)
  ui_viewport : Z * Z;            (* m_app->getViewportSize() *)
  ui_depth : option Z;            (* SliderInt "#1", 1..10 *)
  ui_samples : option Z;          (* SliderInt "#2", 1..5 *)
  ui_frames : option Z;           (* DragInt "#3", 1..1000000 *)
  ui_environment : bool;          (* "Color" or "Rotation" edited *)
  ui_denoise : bool;              (* Checkbox "Denoise" *)
  ui_firstFrame : bool;           (* Checkbox "First Frame" *)
  ui_everyNFrames : option Z;     (* SliderInt "N-frames", 1..500 *)
  ui_blend : option float         (* SliderFloat "Blend" *)
}.

Definition edit_int (new : option Z) (old : Z) : Z :=
  match new with Some v => v | None => old end.
Definition edited {A} (new : option A) : bool :=
  match new with Some _ => true | None => false end.
Definition click (clicked : bool) (old : bool) : bool :=
  if clicked then negb old else old.

Definition ui_settings (ui : UiInput) (s : Settings) : Settings :=
  {| maxFrames := edit_int (ui_frames ui) (maxFrames s);
     maxSamples := edit_int (ui_samples ui) (maxSamples s);
     maxDepth := edit_int (ui_depth ui) (maxDepth s);
     denoiseApply := click (ui_denoise ui) (denoiseApply s);
     denoiseFirstFrame := click (ui_firstFrame ui) (denoiseFirstFrame s);
     denoiseEveryNFrames := edit_int (ui_everyNFrames ui) (denoiseEveryNFrames s) |}.

(** [void onUIRender()]: the key M, the settings panel, the reset it may
    ask for, and the choice of the tonemapper's input. *)
Definition onUIRender (ui : UiInput) : Run unit :=
  when (ui_keyM ui) (onResize (fst (ui_viewport ui)) (snd (ui_viewport ui))) ;;
  let reset := ui_keyM ui || edited (ui_depth ui) || edited (ui_samples ui)
               || edited (ui_frames ui) || ui_environment ui in
  s <- gets m_settings ;;
  modify (set_settings (ui_settings ui s)) ;;
  match ui_blend ui with
  | Some b => modify (set_blendFactor b)
  | None => ret tt
  end ;;
  when reset resetFrame ;;
  s <- gets m_settings ;;
  frame <- gets m_frame ;;
  emit (UpdateComputeDescriptorSets
          (if showDenoisedImage s frame then eGbufDenoised else eGBufResult)
          eGBufLdr).

(** The engine after its constructor: the member initialisers. The statics
    of [updateFrame] hold whatever they hold before its first call. *)
Definition constructed (ref0 : Camera) : Engine :=
  {| m_settings := default_settings;
     m_frame := -1;
     m_fenceValue := 0;
     m_blendFactor := float_zero;
     m_viewSize := (1, 1);
     scene_valid := false;
     ref_camera := ref0 |}.

(** [void onAttach(nvvkhl::Application* app)]: without OptiX the denoiser is
    switched off; then the resources are created. *)
Definition onAttach : Run unit :=
  when (negb NVP_SUPPORTS_OPTIX7)
       (s <- gets m_settings ;;
        modify (set_settings
                  (mkSettings (maxFrames s) (maxSamples s) (maxDepth s) false
                              (denoiseFirstFrame s) (denoiseEveryNFrames s)))) ;;
  size <- gets m_viewSize ;;
  createGbuffers (fst size) (snd size).

(** [void onDetach()] *)
Definition onDetach : Run unit := emit DeviceWaitIdle.

(** *** Sessions: the calls the application makes on the element *)

Inductive Callback : Type :=
| CallResize (width height : Z)
| CallFileDrop (f : DroppedFile)
| CallUIRender (ui : UiInput)
| CallRender (cycle : nat) (cam : Camera).

Definition dispatch (c : Callback) : Run unit :=
  match c with
  | CallResize w h => onResize w h
  | CallFileDrop f => onFileDrop f
  | CallUIRender ui => onUIRender ui
  | CallRender cycle cam => onRender cycle cam
  end.

Fixpoint run_calls (cs : list Callback) : Run unit :=
  match cs with
  | [] => ret tt
  | c :: cs' => dispatch c ;; run_calls cs'
  end.

(** A session: construction, [onAttach], then the calls. *)
Definition session (ref0 : Camera) (cs : list Callback)
  : unit * Engine * list Event :=
  (onAttach ;; run_calls cs) (constructed ref0).

(** *** Reading the log *)

(** Every value signalled on the timeline semaphore, in the order issued. *)
Fixpoint signalled (l : list Event) : list Z :=
  match l with
  | [] => []
  | QueueSubmit2 _ _ v _ :: l' => v :: signalled l'
  | DenoiseInvoke _ v _ :: l' => v :: signalled l'
  | _ :: l' => signalled l'
  end.

(** The signal values of the render submissions. *)
Fixpoint submission_signals (l : list Event) : list Z :=
  match l with
  | [] => []
  | QueueSubmit2 _ _ v _ :: l' => v :: submission_signals l'
  | _ :: l' => submission_signals l'
  end.

(** The (wait, signal) values of the denoiser invocations. *)
Fixpoint denoise_invocations (l : list Event) : list (Z * Z) :=
  match l with
  | [] => []
  | DenoiseInvoke w v _ :: l' => (w, v) :: denoise_invocations l'
  | _ :: l' => denoise_invocations l'
  end.

(** The values the application's frame submission is made to wait on. *)
Fixpoint render_waits (l : list Event) : list Z :=
  match l with
  | [] => []
  | AddWaitSemaphore v _ :: l' => v :: render_waits l'
  | _ :: l' => render_waits l'
  end.

(** The command buffers handed to the queue or to the application. *)
Fixpoint command_buffers (l : list Event) : list (CmdBuffer * list Command) :=
  match l with
  | [] => []
  | QueueSubmit2 cmd rec _ _ :: l' => (cmd, rec) :: command_buffers l'
  | PrependCommandBuffer cmd rec :: l' => (cmd, rec) :: command_buffers l'
  | _ :: l' => command_buffers l'
  end.

(** The buffer (re)creations. *)
Fixpoint reallocations (l : list Event) : list Event :=
  match l with
  | [] => []
  | CreateGBuffers w h :: l' => CreateGBuffers w h :: reallocations l'
  | AllocateBuffers w h :: l' => AllocateBuffers w h :: reallocations l'
  | _ :: l' => reallocations l'
  end.

(** The orchestrator states of the specification, and its transitions read
    off the events the engine has issued so far: a submission with a signal,
    the denoiser invocation, the registered wait, the hand-over of the
    second command buffer. The engine itself stores no such state. *)
Inductive Orchestrator : Type :=
| Idle
| RenderSubmitted
| DenoiseRunning
| DenoiseComplete.

Definition orchestrator_step (st : Orchestrator) (ev : Event) : Orchestrator :=
  match st, ev with
  | Idle, QueueSubmit2 _ _ _ _ => RenderSubmitted
  | RenderSubmitted, DenoiseInvoke _ _ _ => DenoiseRunning
  | DenoiseRunning, AddWaitSemaphore _ _ => DenoiseComplete
  | DenoiseComplete, PrependCommandBuffer _ _ => Idle
  | _, _ => st
  end.


End Model.

Arguments Event {P}.
Arguments Engine {P}.
Arguments Run {P} A.
Arguments UiInput {P}.
Arguments Callback {P}.

(** ** Stating helpers and concrete inputs *)

Section Frames.
Context `{P : Platform}.

(** Whether a call of [onRender] gets past its two early returns. *)
Definition frame_rendered (cam : Camera) (e : Engine) : bool :=
  scene_valid e && result (updateFrame cam e).

(** The engine as [onRender] sees it after [updateFrame]. *)
Definition after_update (cam : Camera) (e : Engine) : Engine :=
  state_of (updateFrame cam e).

(** Whether the frame takes the denoising branch of [onRender]. *)
Definition denoise_active (cam : Camera) (e : Engine) : bool :=
  NVP_SUPPORTS_OPTIX7
  && needToDenoise (m_settings (after_update cam e)) (m_frame (after_update cam e)).


(** The events of a denoised frame, from the engine [e1] that [updateFrame]
    left: the first command buffer submitted with signal [v], the denoiser
    invoked on [v] and completing with [w], the wait on [w], and the second
    command buffer handed to the application. *)
Definition chained_events (cycle : nat) (e1 : Engine) (v w : Z) : list Event :=
  let pc := mkPushConstant (maxDepth (m_settings e1)) (maxSamples (m_settings e1))
                           (m_frame e1) in
  [ QueueSubmit2 (cycle, 0%nat)
      [CmdUpdateBuffer; CmdRaytraceScene pc;
       CmdImageToBuffer [eGBufResult; eGBufAlbedo; eGBufNormal]]
      v STAGE_ALL_COMMANDS;
    DenoiseInvoke v w (m_blendFactor e1);
    AddWaitSemaphore w STAGE_COLOR_ATTACHMENT_OUTPUT;
    PrependCommandBuffer (cycle, 1%nat) [CmdBufferToImage eGbufDenoised; CmdTonemap] ].

(** The only event of a frame that is rendered without denoising. *)
Definition single_events (cycle : nat) (e1 : Engine) : list Event :=
  let pc := mkPushConstant (maxDepth (m_settings e1)) (maxSamples (m_settings e1))
                           (m_frame e1) in
  [ PrependCommandBuffer (cycle, 0%nat)
      [CmdUpdateBuffer; CmdRaytraceScene pc; CmdTonemap] ].

(** The values [k] consecutive increments of a counter at [v] produce. *)
Fixpoint count_from (v : Z) (k : nat) : list Z :=
  match k with
  | O => []
  | S k' => (v + 1) :: count_from (v + 1) k'
  end.

(** The (wait, signal) pairs of [n] denoiser invocations in a row, the
    counter standing at [v] before the first frame. *)
Fixpoint chain_from (v : Z) (n : nat) : list (Z * Z) :=
  match n with
  | O => []
  | S n' => (v + 1, v + 2) :: chain_from (v + 2) n'
  end.

(** A log in which nothing signals or waits on the timeline semaphore. *)
Definition timeline_free (l : list Event) : Prop :=
  signalled l = [] /\ submission_signals l = []
  /\ denoise_invocations l = [] /\ render_waits l = [].

(** Calls on the frame counter alone. *)
Inductive FrameCall : Type :=
| DoUpdateFrame (cam : Camera)
| DoResetFrame.

Definition frame_call (c : FrameCall) : Run unit :=
  match c with
  | DoUpdateFrame cam => bind (updateFrame cam) (fun _ => ret tt)
  | DoResetFrame => resetFrame
  end.

Fixpoint frame_calls (cs : list FrameCall) : Run unit :=
  match cs with
  | [] => ret tt
  | c :: cs' => bind (frame_call c) (fun _ => frame_calls cs')
  end.

(** Whether a call restarts the accumulation. *)
Definition restarts (c : FrameCall) (e : Engine) : bool :=
  match c with
  | DoUpdateFrame cam => camera_differs (ref_camera e) cam
  | DoResetFrame => true
  end.

End Frames.

Arguments FrameCall {P}.

(** A build with OptiX and one without. Cameras are named by integers and
    differ when their names do; a float is its IEEE-754 bit pattern. *)
Definition optix_build : Platform :=
  {| Camera := Z;
     camera_differs := fun a b => negb (a =? b);
     float := Z;
     float_zero := 0;
     NVP_SUPPORTS_OPTIX7 := true |}.

Definition plain_build : Platform :=
  {| Camera := Z;
     camera_differs := fun a b => negb (a =? b);
     float := Z;
     float_zero := 0;
     NVP_SUPPORTS_OPTIX7 := false |}.

(** Scenario A of the specification: 10 frames, every 5th denoised. *)
Definition scenarioA : Settings := mkSettings 10 1 5 true false 5.
(** Scenario B: the same with the first frame denoised. *)
Definition scenarioB : Settings := mkSettings 10 1 5 true true 5.
(** Scenario C: the same with denoising switched off. *)
Definition scenarioC : Settings := mkSettings 10 1 5 false true 5.

(** An engine of the OptiX build about to render its first frame under
    scenario B, a scene loaded and the camera at rest. *)
Definition denoising_engine : @Engine optix_build :=
  @mkEngine optix_build scenarioB (-1) 0 0 (800, 600) true 0.

(** The same engine in the middle of the accumulation, under scenario A. *)
Definition accumulating_engine : @Engine optix_build :=
  @mkEngine optix_build scenarioA 3 4 0 (800, 600) true 0.

(** A session of the OptiX build: a scene is dropped, the user asks for the
    first frame to be denoised and for every second frame, three frames are
    rendered, the window is resized, a frame is rendered, the camera moves
    and another frame is rendered. *)
Definition demo_calls : list (@Callback optix_build) :=
  [ CallFileDrop (FileGltf true);
    CallUIRender
      (@mkUiInput optix_build false (800, 600) None None None false false true
                  (Some 2) None);
    @CallRender optix_build 0%nat 0; @CallRender optix_build 1%nat 0;
    @CallRender optix_build 2%nat 0;
    CallResize 640 480;
    @CallRender optix_build 0%nat 0;
    @CallRender optix_build 1%nat 1 ].

(** A session of the build without OptiX: a scene is dropped, the user
    ticks "Denoise", and frames 0 to 100 are rendered. *)
Definition tick_denoise : @UiInput plain_build :=
  @mkUiInput plain_build false (800, 600) None None None false true false None None.
Definition untouched_panel : @UiInput plain_build :=
  @mkUiInput plain_build false (800, 600) None None None false false false None None.
Definition reenable_calls : list (@Callback plain_build) :=
  CallFileDrop (FileGltf true) :: CallUIRender tick_denoise
  :: repeat (@CallRender plain_build 0%nat 0) 101.

(** Calls on the frame counter: two frames, a reset, a frame on a moved
    camera. *)
Definition demo_frame_calls : list (@FrameCall optix_build) :=
  [ @DoUpdateFrame optix_build 0; @DoUpdateFrame optix_build 0;
    @DoResetFrame optix_build; @DoUpdateFrame optix_build 1 ].

(** ** More of the engine: the panel's read-out and further readers of the log *)

(** The "Denoised Frame" read-out of the settings panel in [onUIRender]:
    [int denoised_frame = -1; if(m_settings.denoiseApply) { ... }], with
    [/] on [int], which truncates. *)
Definition denoised_frame (s : Settings) (m_frame : Z) : Z :=
  if denoiseApply s then
    if maxFrames s <=? m_frame then maxFrames s
    else if denoiseFirstFrame s && (m_frame <? denoiseEveryNFrames s) then 0
    else if denoiseEveryNFrames s <=? m_frame
         then Z.quot m_frame (denoiseEveryNFrames s) * denoiseEveryNFrames s
    else -1
  else -1.

(** The frame indices a command buffer pushes to the ray tracer. *)
Definition command_frames (recorded : list Command) : list Z :=
  flat_map (fun c => match c with
                     | CmdRaytraceScene pc => [pc_frame pc]
                     | _ => []
                     end) recorded.

(** A list of frame indices in which each index is 0 or the successor of
    the one before it, [prev] standing before the first. *)
Fixpoint accumulates (prev : Z) (frames : list Z) : Prop :=
  match frames with
  | [] => True
  | f :: frames' => (f = 0 \/ f = prev + 1) /\ accumulates f frames'
  end.

Section Readers.
Context `{P : Platform}.

(** The frame indices pushed to the ray tracer over a log, in order. *)
Fixpoint traced_frames (l : list Event) : list Z :=
  match l with
  | [] => []
  | QueueSubmit2 _ rec _ _ :: l' => command_frames rec ++ traced_frames l'
  | PrependCommandBuffer _ rec :: l' => command_frames rec ++ traced_frames l'
  | _ :: l' => traced_frames l'
  end.

(** Events that involve neither the timeline semaphore nor the denoiser:
    no submission with a signal, no invocation, no registered wait, no
    denoiser buffers, and command buffers that are the first of their frame
    and hold no copy to or from the denoiser. *)
Definition copies_nothing (c : Command) : bool :=
  match c with
  | CmdImageToBuffer _ | CmdBufferToImage _ => false
  | _ => true
  end.

Definition pass_through (ev : Event) : bool :=
  match ev with
  | QueueSubmit2 _ _ _ _ | DenoiseInvoke _ _ _ | AddWaitSemaphore _ _
  | AllocateBuffers _ _ => false
  | PrependCommandBuffer (_, index) rec =>
      Nat.eqb index 0 && forallb copies_nothing rec
  | _ => true
  end.


(** The "Frames" drag box keeps its value in 1..1000000. *)
Definition frames_edit_in_range (c : Callback) : Prop :=
  match c with
  | CallUIRender ui =>
      match ui_frames ui with
      | Some v => 1 <= v <= 1000000
      | None => True
      end
  | _ => True
  end.


(** What [onUIRender] computes in [reset]. *)
Definition ui_reset (ui : UiInput) : bool :=
  ui_keyM ui || edited (ui_depth ui) || edited (ui_samples ui)
  || edited (ui_frames ui) || ui_environment ui.

(** The calls after which the accumulation starts again: a resize, a
    dropped file, a panel in which the key M, a ray-tracing setting or the
    environment was touched. *)
Definition restarting (c : Callback) : bool :=
  match c with
  | CallResize _ _ | CallFileDrop _ => true
  | CallUIRender ui => ui_reset ui
  | CallRender _ _ => false
  end.

(** The frame index within its bounds, and [maxFrames] within those of its
    drag box. *)
Definition frame_bounded (e : Engine) : Prop :=
  -1 <= m_frame e <= maxFrames (m_settings e)
  /\ 1 <= maxFrames (m_settings e) <= 1000000.

(** [k] calls of [onRender] in a row on one camera. *)
Definition render_calls (cam : Camera) (cycles : list nat) : list Callback :=
  map (fun cycle => CallRender cycle cam) cycles.

End Readers.

(** Further concrete inputs, all of the OptiX build. *)

(** Scenario A one frame before its last. *)
Definition final_engine : @Engine optix_build :=
  @mkEngine optix_build scenarioA 9 4 0 (800, 600) true 0.

(** Scenario A with all its frames rendered. *)
Definition converged_engine : @Engine optix_build :=
  @mkEngine optix_build scenarioA 10 6 0 (800, 600) true 0.

(** A panel in which only "Denoise" is clicked and "N-frames" moved. *)
Definition denoiser_only_ui : @UiInput optix_build :=
  @mkUiInput optix_build false (800, 600) None None None false true false
             (Some 7) None.

(** A panel in which only "N-frames" is moved, to 3. *)
Definition cadence_only_ui : @UiInput optix_build :=
  @mkUiInput optix_build false (800, 600) None None None false false false
             (Some 3) None.

(** A session in which "Frames" is lowered to 2 after five frames. *)
Definition lower_frames_calls : list (@Callback optix_build) :=
  CallFileDrop (FileGltf true)
  :: repeat (@CallRender optix_build 0%nat 0) 5
  ++ CallUIRender
       (@mkUiInput optix_build false (800, 600) None None (Some 2) false false
                   false None None)
  :: repeat (@CallRender optix_build 1%nat 0) 4.


(** ** Orchestration: frames that denoise, the order on the timeline, where
    buffers are recreated, what is held back, what is displayed *)

(** The pipeline stage in which the work of a recorded command executes:
    [vkCmdUpdateBuffer] is a transfer, [raytraceScene] traces rays, the
    tonemapper is run by [runCompute]; the copies to and from the denoiser
    are made by the denoiser's copy pipeline ([createCopyPipeline]). None of
    them writes a colour attachment. *)
Inductive WorkStage : Type :=
| WorkTransfer
| WorkRayTracing
| WorkCompute
| WorkDenoiserCopy
| WorkColorAttachmentOutput.

Definition command_stage (c : Command) : WorkStage :=
  match c with
  | CmdUpdateBuffer => WorkTransfer
  | CmdRaytraceScene _ => WorkRayTracing
  | CmdImageToBuffer _ | CmdBufferToImage _ => WorkDenoiserCopy
  | CmdTonemap => WorkCompute
  end.

(** The synchronization scope of a semaphore operation is limited to the
    stages of its [stageMask]: ALL_COMMANDS takes in every stage,
    COLOR_ATTACHMENT_OUTPUT only the writing of colour attachments. *)
Definition stage_in_scope (mask : PipelineStage) (w : WorkStage) : bool :=
  match mask, w with
  | STAGE_ALL_COMMANDS, _ => true
  | STAGE_COLOR_ATTACHMENT_OUTPUT, WorkColorAttachmentOutput => true
  | STAGE_COLOR_ATTACHMENT_OUTPUT, _ => false
  end.

(** What is displayed: whether a command buffer runs the tonemapper, and
    whether it is the resumed half of a denoised frame. *)
Definition runs_tonemapper (recorded : list Command) : bool :=
  existsb (fun c => match c with CmdTonemap => true | _ => false end) recorded.
Definition copies_back (recorded : list Command) : bool :=
  existsb (fun c => match c with CmdBufferToImage _ => true | _ => false end)
          recorded.

Section Orchestration.
Context `{P : Platform}.

(** Whether a call renders a frame that takes the denoising branch. *)
Definition denoises (c : Callback) (e : Engine) : bool :=
  match c with
  | CallRender _ cam => frame_rendered cam e && denoise_active cam e
  | _ => false
  end.

(** The number of denoised frames in a run of calls from [e]. *)
Fixpoint denoised_frame_count (cs : list Callback) (e : Engine) : nat :=
  match cs with
  | [] => O
  | c :: cs' =>
      ((if denoises c e then 1 else 0)
       + denoised_frame_count cs' (state_of (dispatch c e)))%nat
  end.

(** The operations on the timeline semaphore, in the order issued. *)
Inductive TimelineOp : Type :=
| OpSignal (value : Z)             (* vkQueueSubmit2 with the signal *)
| OpDenoise (waitValue signalValue : Z)
| OpWait (value : Z).              (* addWaitSemaphore *)

Fixpoint timeline_ops (l : list Event) : list TimelineOp :=
  match l with
  | [] => []
  | QueueSubmit2 _ _ v _ :: l' => OpSignal v :: timeline_ops l'
  | DenoiseInvoke w v _ :: l' => OpDenoise w v :: timeline_ops l'
  | AddWaitSemaphore v _ :: l' => OpWait v :: timeline_ops l'
  | _ :: l' => timeline_ops l'
  end.

(** What [n] denoised frames in a row put on the timeline, the counter
    standing at [v] before the first. *)
Fixpoint chain_ops (v : Z) (n : nat) : list TimelineOp :=
  match n with
  | O => []
  | S n' =>
      OpSignal (v + 1) :: OpDenoise (v + 1) (v + 2) :: OpWait (v + 2)
      :: chain_ops (v + 2) n'
  end.

(** The commands handed to the application that the wait registered before
    them does not hold back: those whose stage is outside the wait's stage
    mask. [pending] is the stage mask of the wait registered last and not
    yet followed by a command buffer. *)
Fixpoint not_held_back (pending : option PipelineStage) (l : list Event)
  : list Command :=
  match l with
  | [] => []
  | AddWaitSemaphore _ stage :: l' => not_held_back (Some stage) l'
  | PrependCommandBuffer _ rec :: l' =>
      match pending with
      | Some stage =>
          filter (fun c => negb (stage_in_scope stage (command_stage c))) rec
      | None => []
      end ++ not_held_back None l'
  | _ :: l' => not_held_back pending l'
  end.

(** Whether an event recreates the G-buffers or reallocates the denoiser's
    buffers. *)
Definition recreates (ev : Event) : bool :=
  match ev with
  | CreateGBuffers _ _ | AllocateBuffers _ _ => true
  | _ => false
  end.

(** The orchestrator states in which the recreations of a log are carried
    out, [st] being the state before the log. *)
Fixpoint recreated_in (st : Orchestrator) (l : list Event) : list Orchestrator :=
  match l with
  | [] => []
  | ev :: l' =>
      (if recreates ev then [st] else [])
      ++ recreated_in (orchestrator_step st ev) l'
  end.



(** For each command buffer of the log that runs the tonemapper: whether it
    is the resumed half of a denoised frame, and the G-buffer that the
    tonemapper's descriptor set named when the buffer was recorded, [input]
    being what it names before the log. *)
Fixpoint tonemapped_from (input : option GbufferNames) (l : list Event)
  : list (bool * option GbufferNames) :=
  match l with
  | [] => []
  | UpdateComputeDescriptorSets i _ :: l' => tonemapped_from (Some i) l'
  | PrependCommandBuffer _ rec :: l' =>
      (if runs_tonemapper rec then [(copies_back rec, input)] else [])
      ++ tonemapped_from input l'
  | _ :: l' => tonemapped_from input l'
  end.

(** The G-buffer the tonemapper's descriptor set names after a log. *)
Fixpoint selected_input (l : list Event) : option GbufferNames :=
  match l with
  | [] => None
  | UpdateComputeDescriptorSets i _ :: l' =>
      match selected_input l' with
      | Some j => Some j
      | None => Some i
      end
  | _ :: l' => selected_input l'
  end.

(** The number [onUIRender] prints as "Denoised Frame": computed after the
    key M and the widgets, before [if(reset) resetFrame()]. *)
Definition panel_denoised_frame (ui : UiInput) (e : Engine) : Z :=
  let e1 := state_of (when (ui_keyM ui)
                           (onResize (fst (ui_viewport ui)) (snd (ui_viewport ui)))
                           e) in
  denoised_frame (ui_settings ui (m_settings e1)) (m_frame e1).

End Orchestration.

Arguments TimelineOp : clear implicits.

(** A session of the OptiX build in the order the application calls the
    element, the panel before the frame: a scene is dropped, "N-frames" is
    set to 2, and frames 0, 1 and 2 are rendered. *)
Definition lag_calls : list (@Callback optix_build) :=
  [ CallFileDrop (FileGltf true);
    CallUIRender
      (@mkUiInput optix_build false (800, 600) None None None false false false
                  (Some 2) None);
    @CallRender optix_build 0%nat 0;
    CallUIRender
      (@mkUiInput optix_build false (800, 600) None None None false false false
                  None None);
    @CallRender optix_build 1%nat 0;
    CallUIRender
      (@mkUiInput optix_build false (800, 600) None None None false false false
                  None None);
    @CallRender optix_build 2%nat 0 ].



(** * Properties *)

(** ** The cadence predicates *)

Lemma rem_is_mod (a b : Z) : 0 <= a -> 1 <= b -> Z.rem a b = a mod b.
Proof. intros Ha Hb. apply Z.rem_mod_nonneg; lia. Qed.

Lemma multiple_reaches_divisor (a b : Z) :
  0 < a -> 1 <= b -> a mod b = 0 -> b <= a.
Proof.
  intros Ha Hb Hm.
  pose proof (Z.div_mod a b ltac:(lia)) as E.
  rewrite Hm in E.
  assert (0 < a / b) by nia.
  nia.
Qed.

(** C1. For 0 <= frameIndex <= maxFrames and everyNFrames >= 1,
    [needToDenoise] gives the verdict of the five rules taken in order, and
    is true exactly when denoising is enabled and the frame is the last one,
    or is a multiple of everyNFrames other than a first frame that is not to
    be denoised. *)
Theorem needToDenoise_rules (s : Settings) (frameIndex : Z) :
  0 <= frameIndex <= maxFrames s ->
  1 <= denoiseEveryNFrames s ->
  needToDenoise s frameIndex = needsDenoise_rules s frameIndex
  /\ (needToDenoise s frameIndex = true <->
      denoiseApply s = true
      /\ (frameIndex = maxFrames s
          \/ (frameIndex mod denoiseEveryNFrames s = 0
              /\ ~ (frameIndex = 0 /\ denoiseFirstFrame s = false)))).
Proof.
  intros Hf Hn.
  unfold needsDenoise_rules, cadence_rule, needToDenoise.
  rewrite rem_is_mod by lia.
  destruct (denoiseApply s); cbn [negb rule_verdict].
  2: { split; [reflexivity | split; [discriminate | intros [H _]; discriminate H] ]. }
  destruct (Z.eqb_spec frameIndex (maxFrames s)) as [E | E]; cbn [rule_verdict].
  { split; [reflexivity | split; auto]. }
  destruct (denoiseFirstFrame s); cbn [negb andb];
    destruct (Z.eqb_spec frameIndex 0) as [Z0 | Z0]; cbn [rule_verdict];
    destruct (Z.eqb_spec (frameIndex mod denoiseEveryNFrames s) 0) as [M | M];
    cbn [rule_verdict];
    (split; [reflexivity | ]); split; intros H;
    try discriminate; try reflexivity;
    try (split; [reflexivity | right; split; [assumption | intros [? ?]; congruence] ]);
    destruct H as [_ [? | [? Hn0] ] ]; try congruence;
    exfalso; apply Hn0; split; [assumption | reflexivity].
Qed.

Lemma needToDenoise_rules_witness :
  (0 <= 5 <= maxFrames scenarioA /\ 1 <= denoiseEveryNFrames scenarioA)
  /\ needToDenoise scenarioA 5 = needsDenoise_rules scenarioA 5
  /\ (needToDenoise scenarioA 5 = true <->
      denoiseApply scenarioA = true
      /\ (5 = maxFrames scenarioA
          \/ (5 mod denoiseEveryNFrames scenarioA = 0
              /\ ~ (5 = 0 /\ denoiseFirstFrame scenarioA = false)))).
Proof.
  split; [cbn; lia | ].
  apply (needToDenoise_rules scenarioA 5); cbn; lia.
Defined.

(** The scenarios of the specification, frame by frame. *)
Example scenarioA_frames :
  map (needToDenoise scenarioA) [0; 1; 2; 3; 4; 5; 6; 7; 8; 9; 10]
  = [false; false; false; false; false; true; false; false; false; false; true].
Proof. reflexivity. Qed.

Example scenarioB_frames :
  map (needToDenoise scenarioB) [0; 1; 2; 3; 4; 5; 6; 7; 8; 9; 10]
  = [true; false; false; false; false; true; false; false; false; false; true].
Proof. reflexivity. Qed.

Lemma needToDenoise_disabled (s : Settings) (frame : Z) :
  denoiseApply s = false -> needToDenoise s frame = false.
Proof. intros H. unfold needToDenoise. rewrite H. reflexivity. Qed.

(** C10, amended. For frameIndex >= 0, maxFrames >= 1 and everyNFrames in
    1..500: at a frame index for which [needToDenoise] holds,
    [showDenoisedImage] holds too. *)
Theorem needToDenoise_shows_denoised (s : Settings) (frameIndex : Z) :
  0 <= frameIndex ->
  1 <= maxFrames s ->
  1 <= denoiseEveryNFrames s <= 500 ->
  needToDenoise s frameIndex = true ->
  showDenoisedImage s frameIndex = true.
Proof.
  intros Hf Hm Hn.
  unfold needToDenoise, showDenoisedImage.
  destruct (denoiseApply s); [ | discriminate].
  destruct (Z.eqb_spec frameIndex (maxFrames s)) as [E | E].
  { intros _. cbn [andb]. apply orb_true_iff. right. apply Z.leb_le. lia. }
  destruct (denoiseFirstFrame s); cbn [negb andb].
  { intros _. rewrite orb_true_r. reflexivity. }
  destruct (Z.eqb_spec frameIndex 0) as [Z0 | Z0]; [discriminate | ].
  rewrite rem_is_mod by lia.
  destruct (Z.eqb_spec (frameIndex mod denoiseEveryNFrames s) 0) as [M | M];
    [ | discriminate].
  intros _.
  assert (denoiseEveryNFrames s <= frameIndex)
    by (apply multiple_reaches_divisor; lia).
  replace (denoiseEveryNFrames s <=? frameIndex) with true
    by (symmetry; apply Z.leb_le; assumption).
  reflexivity.
Qed.

Lemma needToDenoise_shows_denoised_witness :
  (0 <= 5 /\ 1 <= maxFrames scenarioA /\ 1 <= denoiseEveryNFrames scenarioA <= 500
   /\ needToDenoise scenarioA 5 = true)
  /\ showDenoisedImage scenarioA 5 = true.
Proof.
  split; [cbn; repeat split; lia | ].
  apply (needToDenoise_shows_denoised scenarioA 5); cbn; try lia; reflexivity.
Defined.

(** C5, as stated, fails once denoising is switched off: in scenario C the
    first frame is to be denoised and frame 7 is past the first boundary,
    yet the raw result is displayed. *)
Lemma showDenoisedImage_disabled_counterexample :
  ~ ((denoiseEveryNFrames scenarioC <= 7
      \/ denoiseFirstFrame scenarioC = true
      \/ maxFrames scenarioC <= 7)
     -> showDenoisedImage scenarioC 7 = true).
Proof.
  intros H.
  assert (E : showDenoisedImage scenarioC 7 = true)
    by (apply H; left; cbn; lia).
  discriminate E.
Qed.

(** C5, amended. [showDenoisedImage] is true exactly when denoising is
    enabled and the frame index has reached everyNFrames, or the first frame
    is denoised, or the frame index has reached maxFrames; so at frame 0 with
    denoiseFirstFrame unset (everyNFrames >= 1, maxFrames >= 1) it is false
    and the raw result is displayed. *)
Theorem showDenoisedImage_enabled (s : Settings) (frameIndex : Z) :
  (showDenoisedImage s frameIndex = true <->
   denoiseApply s = true
   /\ (denoiseEveryNFrames s <= frameIndex
       \/ denoiseFirstFrame s = true
       \/ maxFrames s <= frameIndex))
  /\ (1 <= denoiseEveryNFrames s -> 1 <= maxFrames s ->
      denoiseFirstFrame s = false ->
      showDenoisedImage s 0 = false).
Proof.
  unfold showDenoisedImage. split.
  - rewrite andb_true_iff, !orb_true_iff, !Z.leb_le. tauto.
  - intros Hn Hm Hf. rewrite Hf.
    destruct (Z.leb_spec (denoiseEveryNFrames s) 0); [lia | ].
    destruct (Z.leb_spec (maxFrames s) 0); [lia | ].
    apply andb_false_r.
Qed.

Lemma showDenoisedImage_enabled_witness :
  (1 <= denoiseEveryNFrames scenarioA /\ 1 <= maxFrames scenarioA
   /\ denoiseFirstFrame scenarioA = false)
  /\ (showDenoisedImage scenarioA 5 = true <->
      denoiseApply scenarioA = true
      /\ (denoiseEveryNFrames scenarioA <= 5
          \/ denoiseFirstFrame scenarioA = true
          \/ maxFrames scenarioA <= 5))
  /\ showDenoisedImage scenarioA 0 = false.
Proof.
  split; [cbn; repeat split; lia | ].
  split.
  - apply (proj1 (showDenoisedImage_enabled scenarioA 5)).
  - apply (proj2 (showDenoisedImage_enabled scenarioA 5)); cbn; try lia; reflexivity.
Defined.

(** ** The frame counter *)

Section FrameCounter.
Context `{P : Platform}.

(** [updateFrame] in closed form: the engine after the optional reset, then
    the guarded increment; it logs nothing. *)
Lemma updateFrame_unfold (cam : Camera) (e : Engine) :
  updateFrame cam e =
  let e0 := if camera_differs (ref_camera e) cam
            then set_ref_camera cam (set_frame (-1) e) else e in
  if maxFrames (m_settings e0) <=? m_frame e0
  then (false, e0, [])
  else (true, set_frame (m_frame e0 + 1) e0, []).
Proof.
  unfold updateFrame, bind, gets, when, resetFrame, modify, ret.
  destruct (camera_differs (ref_camera e) cam); cbn.
  - destruct (maxFrames (m_settings e) <=? -1); reflexivity.
  - destruct (maxFrames (m_settings e) <=? m_frame e); reflexivity.
Qed.

Lemma updateFrame_keeps (cam : Camera) (e : Engine) :
  let e' := state_of (updateFrame cam e) in
  m_settings e' = m_settings e
  /\ m_fenceValue e' = m_fenceValue e
  /\ m_blendFactor e' = m_blendFactor e
  /\ scene_valid e' = scene_valid e
  /\ events_of (updateFrame cam e) = [].
Proof.
  rewrite updateFrame_unfold.
  destruct (camera_differs (ref_camera e) cam); cbn;
    match goal with |- context [?a <=? ?b] => destruct (a <=? b) end;
    cbn; repeat split; reflexivity.
Qed.

(** X5. [m_frame++] stays within [int]: it is only reached below [maxFrames]. *)
Lemma updateFrame_int_range (cam : Camera) (e : Engine) :
  int_range (maxFrames (m_settings e)) ->
  int_range (m_frame e) ->
  int_range (m_frame (state_of (updateFrame cam e))).
Proof.
  unfold int_range, INT_MIN, INT_MAX. intros Hmax Hf.
  rewrite updateFrame_unfold.
  destruct (camera_differs (ref_camera e) cam); cbn.
  - destruct (Z.leb_spec (maxFrames (m_settings e)) (-1)); cbn; lia.
  - destruct (Z.leb_spec (maxFrames (m_settings e)) (m_frame e)); cbn; lia.
Qed.

(** C6. With maxFrames >= 1: when the camera has changed, [updateFrame]
    resets the frame index to -1 and increments it, leaving 0 and returning
    true whatever the index was; when it has not, [updateFrame] returns
    false exactly when frameIndex >= maxFrames, then leaving the index as it
    was, and otherwise increments the index and returns true. *)
Theorem updateFrame_cases (cam : Camera) (e : Engine) :
  1 <= maxFrames (m_settings e) ->
  let r := updateFrame cam e in
  m_frame (state_of (resetFrame e)) = -1
  /\ (camera_differs (ref_camera e) cam = true ->
      state_of r = set_frame (m_frame (state_of (resetFrame e)) + 1)
                             (set_ref_camera cam (state_of (resetFrame e)))
      /\ result r = true /\ m_frame (state_of r) = 0)
  /\ (camera_differs (ref_camera e) cam = false ->
      (result r = false <-> maxFrames (m_settings e) <= m_frame e)
      /\ (maxFrames (m_settings e) <= m_frame e -> state_of r = e)
      /\ (m_frame e < maxFrames (m_settings e) ->
          result r = true /\ m_frame (state_of r) = m_frame e + 1)).
Proof.
  intros Hmax r. subst r.
  split; [reflexivity | ].
  rewrite updateFrame_unfold.
  split; intros Hcam; rewrite Hcam; cbn.
  - destruct (Z.leb_spec (maxFrames (m_settings e)) (-1)); [lia | ].
    repeat split; reflexivity.
  - destruct (Z.leb_spec (maxFrames (m_settings e)) (m_frame e)); cbn.
    + repeat split; auto; lia.
    + repeat split; try lia; try discriminate; intros; lia.
Qed.

Lemma bind_run {A B} (m : Run A) (k : A -> Run B) (e : Engine) :
  bind m k e =
  (result (k (result (m e)) (state_of (m e))),
   state_of (k (result (m e)) (state_of (m e))),
   events_of (m e) ++ events_of (k (result (m e)) (state_of (m e)))).
Proof.
  unfold bind, result, state_of, events_of.
  destruct (m e) as [[a e1] l1]; cbn.
  destruct (k a e1) as [[b e2] l2]; reflexivity.
Qed.

Lemma frame_call_step (c : FrameCall) (e : Engine) :
  let e' := state_of (frame_call c e) in
  m_settings e' = m_settings e
  /\ (restarts c e = true ->
      m_frame e' = -1 \/ m_frame e' = 0)
  /\ (restarts c e = false ->
      m_frame e <= m_frame e' <= m_frame e + 1
      /\ (m_frame e <= maxFrames (m_settings e) ->
          m_frame e' <= maxFrames (m_settings e))).
Proof.
  destruct c as [cam | ]; cbn [frame_call restarts].
  - rewrite bind_run, updateFrame_unfold. cbn [state_of ret fst snd].
    destruct (camera_differs (ref_camera e) cam); cbn.
    + destruct (Z.leb_spec (maxFrames (m_settings e)) (-1)); cbn;
        repeat split; auto; discriminate.
    + destruct (Z.leb_spec (maxFrames (m_settings e)) (m_frame e)); cbn;
        repeat split; try discriminate; lia.
  - cbn. repeat split; auto; discriminate.
Qed.

Lemma frame_calls_invariant (cs : list FrameCall) :
  forall e : Engine,
    1 <= maxFrames (m_settings e) ->
    -1 <= m_frame e <= maxFrames (m_settings e) ->
    let e' := state_of (frame_calls cs e) in
    m_settings e' = m_settings e
    /\ -1 <= m_frame e' <= maxFrames (m_settings e).
Proof.
  induction cs as [ | c cs IH]; intros e Hmax Hb; cbn [frame_calls].
  - cbn. split; [reflexivity | assumption].
  - rewrite bind_run. cbn [state_of fst snd].
    destruct (frame_call_step c e) as [Hs [Hr Hk] ].
    destruct (IH (state_of (frame_call c e))) as [Hs' Hb'].
    + rewrite Hs. assumption.
    + rewrite Hs. destruct (restarts c e).
      * destruct (Hr eq_refl) as [E | E]; rewrite E; lia.
      * destruct (Hk eq_refl) as [Hk1 Hk2]. lia.
    + split; [rewrite Hs'; exact Hs | rewrite <- Hs; exact Hb'].
Qed.

(** C7. With maxFrames fixed and at least 1, after any interleaving of
    [updateFrame] and [resetFrame] calls the frame index lies between -1 and
    maxFrames; and a further call either restarts the count ([resetFrame]
    leaves -1, [updateFrame] on a changed camera leaves 0) or leaves the
    index where it was or one higher. *)
Theorem frame_index_invariant (cs : list FrameCall) (e0 : Engine) :
  1 <= maxFrames (m_settings e0) ->
  -1 <= m_frame e0 <= maxFrames (m_settings e0) ->
  let e := state_of (frame_calls cs e0) in
  maxFrames (m_settings e) = maxFrames (m_settings e0)
  /\ -1 <= m_frame e <= maxFrames (m_settings e0)
  /\ forall c : FrameCall,
       let e' := state_of (frame_call c e) in
       ((restarts c e = true /\ (m_frame e' = -1 \/ m_frame e' = 0))
        \/ (restarts c e = false /\ m_frame e <= m_frame e' <= m_frame e + 1))
       /\ m_frame e' <= maxFrames (m_settings e0).
Proof.
  intros Hmax Hb e.
  destruct (frame_calls_invariant cs e0 Hmax Hb) as [Hs Hbe].
  fold e in Hs, Hbe.
  split; [rewrite Hs; reflexivity | ].
  split; [exact Hbe | ].
  intros c e'.
  destruct (frame_call_step c e) as [_ [Hr Hk] ]. fold e' in Hr, Hk.
  destruct (restarts c e).
  - destruct (Hr eq_refl) as [E | E]; rewrite E; split; try lia;
      left; split; auto.
  - destruct (Hk eq_refl) as [Hk1 Hk2]. rewrite Hs in Hk2.
    split; [right; split; [reflexivity | exact Hk1] | apply Hk2; lia].
Qed.

End FrameCounter.

(** ** What a frame submits *)

Section Submission.
Context `{P : Platform}.

(** [onRender] in closed form. *)
Lemma onRender_unfold (cycle : nat) (cam : Camera) (e : Engine) :
  onRender cycle cam e =
  if negb (frame_rendered cam e)
  then (tt, (if scene_valid e then after_update cam e else e), [])
  else
    let e1 := after_update cam e in
    if denoise_active cam e
    then
      let v := wrap64 (m_fenceValue e + 1) in
      let w := wrap64 (v + 1) in
      (tt, set_fenceValue w e1, chained_events cycle e1 v w)
    else (tt, e1, single_events cycle e1).
Proof.
  unfold frame_rendered, denoise_active, after_update.
  pose proof (updateFrame_keeps cam e) as K. cbn zeta in K.
  destruct K as (_ & Kf & _ & _ & Kl). revert Kf Kl.
  unfold onRender, chained_events, single_events, denoise_and_resume,
    denoiseImage, denoiseImageBuffer, copyImagesToCuda, copyCudaImagesToVulkan.
  unfold bind, gets, modify, emit, ret, result, state_of, events_of.
  destruct (scene_valid e); cbn [negb andb fst snd]; [ | reflexivity].
  destruct (updateFrame cam e) as [ [continue e1] l1].
  cbn [fst snd]. intros Kf Kl. subst l1. rewrite <- Kf.
  destruct continue; cbn [negb]; [ | reflexivity].
  destruct NVP_SUPPORTS_OPTIX7; cbn [andb]; [ | reflexivity].
  destruct (needToDenoise (m_settings e1) (m_frame e1)); reflexivity.
Qed.

Lemma wrap64_small (z : Z) : uint64_range z -> wrap64 z = z.
Proof. intros H. unfold wrap64. apply Z.mod_small. exact H. Qed.


(** The values of a denoised frame, the counter standing at V-1 with room
    for two increments: the first command buffer is submitted with signal V, the
    denoiser is invoked to wait on V and to signal V+1, and the wait
    registered for the application's submission, before the second command
    buffer with the copy back and the tonemapper is handed to it, is on V+1,
    the value the denoiser signals. *)
Theorem resume_waits_for_denoise (cycle : nat) (cam : Camera) (e : Engine) :
  frame_rendered cam e = true ->
  denoise_active cam e = true ->
  0 <= m_fenceValue e ->
  m_fenceValue e + 2 < UINT64_MOD ->
  let log := events_of (onRender cycle cam e) in
  let V := m_fenceValue e + 1 in
  (exists first : list Command,
     log = [ QueueSubmit2 (cycle, 0%nat) first V STAGE_ALL_COMMANDS;
             DenoiseInvoke V (V + 1) (m_blendFactor e);
             AddWaitSemaphore (V + 1) STAGE_COLOR_ATTACHMENT_OUTPUT;
             PrependCommandBuffer (cycle, 1%nat)
               [CmdBufferToImage eGbufDenoised; CmdTonemap] ])
  /\ submission_signals log = [V]
  /\ denoise_invocations log = [(V, V + 1)]
  /\ render_waits log = [V + 1]
  /\ m_fenceValue (state_of (onRender cycle cam e)) = V + 1.
Proof.
  intros Hr Ha H0 H2 log V. subst log.
  rewrite onRender_unfold, Hr, Ha. cbn [negb]. cbn zeta.
  rewrite (wrap64_small (m_fenceValue e + 1)) by (unfold uint64_range, UINT64_MOD in *; lia).
  rewrite (wrap64_small (m_fenceValue e + 1 + 1)) by (unfold uint64_range, UINT64_MOD in *; lia).
  fold V. unfold chained_events, after_update.
  destruct (updateFrame_keeps cam e) as (_ & _ & Kb & _). rewrite Kb.
  cbn. repeat split; try reflexivity.
  eexists. reflexivity.
Qed.

End Submission.

(** ** The timeline semaphore over a session *)

Section Timeline.
Context `{P : Platform}.

Lemma signalled_app (l1 l2 : list Event) :
  signalled (l1 ++ l2) = signalled l1 ++ signalled l2.
Proof.
  induction l1 as [ | ev l1 IH]; [reflexivity | ].
  destruct ev; cbn; rewrite IH; reflexivity.
Qed.

Lemma submission_signals_app (l1 l2 : list Event) :
  submission_signals (l1 ++ l2) = submission_signals l1 ++ submission_signals l2.
Proof.
  induction l1 as [ | ev l1 IH]; [reflexivity | ].
  destruct ev; cbn; rewrite IH; reflexivity.
Qed.

Lemma denoise_invocations_app (l1 l2 : list Event) :
  denoise_invocations (l1 ++ l2) = denoise_invocations l1 ++ denoise_invocations l2.
Proof.
  induction l1 as [ | ev l1 IH]; [reflexivity | ].
  destruct ev; cbn; rewrite IH; reflexivity.
Qed.

Lemma render_waits_app (l1 l2 : list Event) :
  render_waits (l1 ++ l2) = render_waits l1 ++ render_waits l2.
Proof.
  induction l1 as [ | ev l1 IH]; [reflexivity | ].
  destruct ev; cbn; rewrite IH; reflexivity.
Qed.

(** [createGbuffers] and [onResize] in closed form. *)
Lemma createGbuffers_unfold (x y : Z) (e : Engine) :
  createGbuffers x y e =
  (tt, set_frame (-1) (set_viewSize (x, y) e),
   CreateGBuffers (uint32_of_float x) (uint32_of_float y)
   :: (if NVP_SUPPORTS_OPTIX7
       then [AllocateBuffers (uint32_of_float x) (uint32_of_float y)] else [])).
Proof.
  unfold createGbuffers, resetFrame, when, bind, modify, emit, ret.
  destruct NVP_SUPPORTS_OPTIX7; reflexivity.
Qed.

Lemma onResize_unfold (w h : Z) (e : Engine) :
  onResize w h e =
  (tt, set_frame (-1) (set_viewSize (float_of_uint32 w, float_of_uint32 h) e),
   CreateGBuffers (uint32_of_float (float_of_uint32 w))
                  (uint32_of_float (float_of_uint32 h))
   :: (if NVP_SUPPORTS_OPTIX7
       then [AllocateBuffers (uint32_of_float (float_of_uint32 w))
                             (uint32_of_float (float_of_uint32 h))]
       else [])
   ++ UpdateComputeDescriptorSets eGBufResult eGBufLdr
   :: (if scene_valid e then [WriteRtxSet] else [])).
Proof.
  unfold onResize. rewrite bind_run, createGbuffers_unfold.
  unfold writeRtxSet, when, bind, gets, emit, ret, result, state_of, events_of.
  cbn [fst snd scene_valid set_frame set_viewSize].
  destruct NVP_SUPPORTS_OPTIX7, (scene_valid e); reflexivity.
Qed.

Ltac quiet := unfold timeline_free; cbn; repeat split; reflexivity.

Lemma onResize_quiet (w h : Z) (e : Engine) :
  m_fenceValue (state_of (onResize w h e)) = m_fenceValue e
  /\ timeline_free (events_of (onResize w h e)).
Proof.
  rewrite onResize_unfold. destruct NVP_SUPPORTS_OPTIX7, (scene_valid e); quiet.
Qed.

Lemma onFileDrop_quiet (f : DroppedFile) (e : Engine) :
  m_fenceValue (state_of (onFileDrop f e)) = m_fenceValue e
  /\ timeline_free (events_of (onFileDrop f e)).
Proof.
  destruct f as [ [ | ] | | ]; quiet.
Qed.

Lemma onUIRender_quiet (ui : UiInput) (e : Engine) :
  m_fenceValue (state_of (onUIRender ui e)) = m_fenceValue e
  /\ timeline_free (events_of (onUIRender ui e)).
Proof.
  unfold onUIRender. rewrite bind_run.
  destruct (ui_keyM ui); cbn [when]; [rewrite onResize_unfold | ];
    unfold bind, gets, modify, emit, ret, when, resetFrame,
      result, state_of, events_of; cbn [fst snd orb];
    destruct (ui_blend ui);
    try destruct (edited (ui_depth ui) || edited (ui_samples ui)
                  || edited (ui_frames ui) || ui_environment ui);
    try destruct NVP_SUPPORTS_OPTIX7; try destruct (scene_valid e); quiet.
Qed.

Lemma onAttach_quiet (e : Engine) :
  m_fenceValue (state_of (onAttach e)) = m_fenceValue e
  /\ timeline_free (events_of (onAttach e)).
Proof.
  unfold onAttach. rewrite bind_run.
  destruct NVP_SUPPORTS_OPTIX7; cbn [negb when];
    rewrite bind_run, createGbuffers_unfold;
    unfold bind, gets, modify, ret, result, state_of, events_of;
    cbn [fst snd]; try destruct NVP_SUPPORTS_OPTIX7; quiet.
Qed.

Lemma count_from_two (v : Z) (k : nat) :
  count_from v (2 * S k) = (v + 1) :: (v + 2) :: count_from (v + 2) (2 * k).
Proof.
  replace (2 * S k)%nat with (S (S (2 * k))) by lia.
  cbn [count_from]. replace (v + 1 + 1) with (v + 2) by lia. reflexivity.
Qed.

Lemma chain_from_above (v : Z) (n : nat) :
  forall w : Z, In w (map fst (chain_from v n)) -> v < w.
Proof.
  revert v. induction n as [ | n IH]; intros v w; cbn; [tauto | ].
  intros [E | Hin]; [lia | ]. apply IH in Hin. lia.
Qed.

Lemma chain_from_NoDup (v : Z) (n : nat) : NoDup (map fst (chain_from v n)).
Proof.
  revert v. induction n as [ | n IH]; intros v; cbn; constructor.
  - intros Hin. apply chain_from_above in Hin. lia.
  - apply IH.
Qed.

Lemma chain_from_successor (v : Z) (n : nat) :
  Forall (fun i => snd i = fst i + 1) (chain_from v n).
Proof.
  revert v. induction n as [ | n IH]; intros v; cbn; constructor.
  - cbn. lia.
  - apply IH.
Qed.

Lemma chain_from_length (v : Z) (n : nat) : length (chain_from v n) = n.
Proof.
  revert v. induction n as [ | n IH]; intros v; cbn; [ | rewrite IH]; reflexivity.
Qed.

End Timeline.

(** ** Resizing *)

Section Resize.
Context `{P : Platform}.

(** Without OptiX no frame takes the denoising branch, whatever the
    settings say. *)
Lemma plain_build_single_submission (cycle : nat) (cam : Camera) (e : Engine) :
  NVP_SUPPORTS_OPTIX7 = false ->
  frame_rendered cam e = true ->
  events_of (onRender cycle cam e) = single_events cycle (after_update cam e).
Proof.
  intros Hx Hr. rewrite onRender_unfold, Hr. unfold denoise_active.
  rewrite Hx. reflexivity.
Qed.

End Resize.

(** ** Concrete runs *)

(** C9. A build without OptiX starts with denoising switched off, but the
    "Denoise" check box switches it on again: after [reenable_calls] the
    cadence asks for frame 100 to be denoised and the denoised G-buffer is
    chosen for display, although every frame was submitted as a single
    command buffer and nothing ever wrote that G-buffer. *)
Theorem unsupported_build_reenabled :
  let started := state_of (onAttach (@constructed plain_build 0)) in
  let r := @session plain_build 0 reenable_calls in
  denoiseApply (m_settings started) = false
  /\ denoiseApply (m_settings (state_of r)) = true
  /\ m_frame (state_of r) = 100
  /\ needToDenoise (m_settings (state_of r)) (m_frame (state_of r)) = true
  /\ showDenoisedImage (m_settings (state_of r)) (m_frame (state_of r)) = true
  /\ events_of (onUIRender untouched_panel (state_of r))
     = [UpdateComputeDescriptorSets eGbufDenoised eGBufLdr]
  /\ length (command_buffers (events_of r)) = 101%nat
  /\ signalled (events_of r) = []
  /\ denoise_invocations (events_of r) = [].
Proof.
  vm_compute. repeat split; reflexivity.
Qed.

Lemma updateFrame_cases_witness :
  1 <= maxFrames (m_settings accumulating_engine)
  /\ (@camera_differs optix_build (ref_camera accumulating_engine) 1 = true
      /\ result (@updateFrame optix_build 1 accumulating_engine) = true
      /\ m_frame (state_of (@updateFrame optix_build 1 accumulating_engine)) = 0)
  /\ (@camera_differs optix_build (ref_camera accumulating_engine) 0 = false
      /\ m_frame accumulating_engine < maxFrames (m_settings accumulating_engine)
      /\ result (@updateFrame optix_build 0 accumulating_engine) = true
      /\ m_frame (state_of (@updateFrame optix_build 0 accumulating_engine))
         = m_frame accumulating_engine + 1).
Proof.
  assert (Hmax : 1 <= maxFrames (m_settings accumulating_engine)) by (cbn; lia).
  split; [exact Hmax | split].
  - split; [reflexivity | ].
    apply (proj1 (proj2 (@updateFrame_cases optix_build 1 accumulating_engine Hmax))).
    reflexivity.
  - split; [reflexivity | ]. split; [cbn; lia | ].
    apply (proj2 (proj2 (@updateFrame_cases optix_build 0 accumulating_engine Hmax))).
    + reflexivity.
    + cbn. lia.
Defined.

Lemma frame_index_invariant_witness :
  (1 <= maxFrames (m_settings denoising_engine)
   /\ -1 <= m_frame denoising_engine <= maxFrames (m_settings denoising_engine))
  /\ (let e := state_of (frame_calls demo_frame_calls denoising_engine) in
      maxFrames (m_settings e) = maxFrames (m_settings denoising_engine)
      /\ -1 <= m_frame e <= maxFrames (m_settings denoising_engine)
      /\ forall c : FrameCall,
           let e' := state_of (frame_call c e) in
           ((restarts c e = true /\ (m_frame e' = -1 \/ m_frame e' = 0))
            \/ (restarts c e = false /\ m_frame e <= m_frame e' <= m_frame e + 1))
           /\ m_frame e' <= maxFrames (m_settings denoising_engine)).
Proof.
  split; [cbn; lia | ].
  apply (@frame_index_invariant optix_build demo_frame_calls denoising_engine);
    cbn; lia.
Defined.

Example demo_frame_calls_run :
  m_frame (state_of (frame_calls demo_frame_calls denoising_engine)) = 0.
Proof. reflexivity. Qed.


Lemma resume_waits_for_denoise_witness :
  (@frame_rendered optix_build 0 denoising_engine = true
   /\ @denoise_active optix_build 0 denoising_engine = true
   /\ 0 <= m_fenceValue denoising_engine
   /\ m_fenceValue denoising_engine + 2 < UINT64_MOD)
  /\ submission_signals (events_of (@onRender optix_build 0%nat 0 denoising_engine)) = [1]
  /\ denoise_invocations (events_of (@onRender optix_build 0%nat 0 denoising_engine))
     = [(1, 2)]
  /\ render_waits (events_of (@onRender optix_build 0%nat 0 denoising_engine)) = [2]
  /\ m_fenceValue (state_of (@onRender optix_build 0%nat 0 denoising_engine)) = 2.
Proof.
  split.
  - repeat split; try reflexivity; cbn; lia.
  - apply (proj2 (@resume_waits_for_denoise optix_build 0%nat 0 denoising_engine
                    eq_refl eq_refl ltac:(cbn; lia) ltac:(cbn; lia))).
Defined.

(** What [demo_calls] puts on the timeline: four denoised frames. *)
Example demo_calls_timeline :
  let log := events_of (@session optix_build 0 demo_calls) in
  signalled log = [1; 2; 3; 4; 5; 6; 7; 8]
  /\ denoise_invocations log = [(1, 2); (3, 4); (5, 6); (7, 8)]
  /\ submission_signals log = [1; 3; 5; 7]
  /\ render_waits log = [2; 4; 6; 8].
Proof. vm_compute. repeat split; reflexivity. Qed.

(** * Further properties of the code *)

(** ** The read-out of the denoised frame *)

Lemma needToDenoise_before_last (s : Settings) (k : Z) :
  0 <= k < maxFrames s ->
  1 <= denoiseEveryNFrames s ->
  needToDenoise s k
  = denoiseApply s
    && (denoiseFirstFrame s || negb (k =? 0))
    && (k mod denoiseEveryNFrames s =? 0).
Proof.
  intros Hk Hn. unfold needToDenoise.
  rewrite rem_is_mod by lia.
  destruct (denoiseApply s); [ | reflexivity].
  destruct (Z.eqb_spec k (maxFrames s)); [lia | ].
  destruct (denoiseFirstFrame s), (k =? 0),
    (k mod denoiseEveryNFrames s =? 0); reflexivity.
Qed.

Lemma needToDenoise_last (s : Settings) :
  denoiseApply s = true -> needToDenoise s (maxFrames s) = true.
Proof.
  intros Ha. unfold needToDenoise. rewrite Ha, Z.eqb_refl. reflexivity.
Qed.

Lemma no_multiple_within (n a k : Z) :
  1 <= n -> 0 <= a -> n * (a / n) < k <= a -> k mod n <> 0.
Proof.
  intros Hn Ha Hk Hm.
  pose proof (Z.div_mod a n ltac:(lia)) as Ea.
  pose proof (Z.mod_pos_bound a n ltac:(lia)) as Ba.
  pose proof (Z.div_mod k n ltac:(lia)) as Ek.
  rewrite Hm in Ek.
  assert (a / n < k / n) by nia.
  nia.
Qed.

(** At one frame index and under one setting, the read-out is an index
    exactly when [showDenoisedImage] holds. *)
Theorem denoised_frame_shown (s : Settings) (frame : Z) :
  1 <= denoiseEveryNFrames s ->
  0 <= maxFrames s ->
  (denoised_frame s frame <> -1 <-> showDenoisedImage s frame = true).
Proof.
  intros Hn Hm. unfold denoised_frame, showDenoisedImage.
  destruct (denoiseApply s); cbn [andb]; [ | split; [congruence | discriminate] ].
  destruct (Z.leb_spec (maxFrames s) frame) as [L | L].
  { rewrite orb_true_r. split; [reflexivity | intros _; lia]. }
  rewrite orb_false_r.
  destruct (denoiseFirstFrame s); cbn [andb orb].
  - rewrite orb_true_r.
    destruct (Z.ltb_spec frame (denoiseEveryNFrames s)) as [B | B].
    + split; [reflexivity | intros _; lia].
    + destruct (Z.leb_spec (denoiseEveryNFrames s) frame); [ | lia].
      split; [reflexivity | intros _].
      rewrite Z.quot_div_nonneg by lia.
      assert (1 <= frame / denoiseEveryNFrames s)
        by (apply Z.div_le_lower_bound; lia).
      nia.
  - rewrite orb_false_r.
    destruct (Z.leb_spec (denoiseEveryNFrames s) frame) as [B | B].
    + split; [reflexivity | intros _].
      rewrite Z.quot_div_nonneg by lia.
      assert (1 <= frame / denoiseEveryNFrames s)
        by (apply Z.div_le_lower_bound; lia).
      nia.
    + split; [congruence | discriminate].
Qed.

(** X2. The index the panel shows is the last frame, up to the current one, that
    the cadence denoises; it shows -1 when there is none. *)
Theorem denoised_frame_latest (s : Settings) (frame : Z) :
  0 <= frame <= maxFrames s ->
  1 <= denoiseEveryNFrames s ->
  let d := denoised_frame s frame in
  (d = -1 -> forall k, 0 <= k <= frame -> needToDenoise s k = false)
  /\ (d <> -1 ->
      0 <= d <= frame
      /\ needToDenoise s d = true
      /\ forall k, d < k <= frame -> needToDenoise s k = false).
Proof.
  intros Hf Hn. cbn zeta. unfold denoised_frame.
  destruct (denoiseApply s) eqn:Ha.
  2: { split; [intros _ k _; apply needToDenoise_disabled; exact Ha
              | intros H; contradiction H; reflexivity]. }
  destruct (Z.leb_spec (maxFrames s) frame) as [L | L].
  { split; [intros E; lia | intros _].
    split; [lia | split; [apply needToDenoise_last; exact Ha | intros k Hk; lia] ]. }
  assert (Inner : forall k, 0 <= k <= frame ->
            needToDenoise s k
            = (denoiseFirstFrame s || negb (k =? 0))
              && (k mod denoiseEveryNFrames s =? 0)).
  { intros k Hk. rewrite needToDenoise_before_last by lia. rewrite Ha. reflexivity. }
  destruct (denoiseFirstFrame s) eqn:Hfirst; cbn [andb orb] in *.
  - destruct (Z.ltb_spec frame (denoiseEveryNFrames s)) as [B | B].
    + split; [intros E; discriminate E | intros _].
      split; [lia | split].
      * rewrite Inner by lia. rewrite Z.mod_0_l by lia. reflexivity.
      * intros k Hk. rewrite Inner by lia. rewrite Z.mod_small by lia.
        destruct (Z.eqb_spec k 0); [lia | reflexivity].
    + destruct (Z.leb_spec (denoiseEveryNFrames s) frame); [ | lia].
      rewrite Z.quot_div_nonneg by lia.
      pose proof (Z.div_mod frame (denoiseEveryNFrames s) ltac:(lia)) as E.
      pose proof (Z.mod_pos_bound frame (denoiseEveryNFrames s) ltac:(lia)) as Bm.
      assert (1 <= frame / denoiseEveryNFrames s)
        by (apply Z.div_le_lower_bound; lia).
      split; [intros E1; nia | intros _].
      split; [nia | split].
      * rewrite Inner by nia. rewrite Z.mod_mul by lia. reflexivity.
      * intros k Hk. rewrite Inner by nia.
        destruct (Z.eqb_spec (k mod denoiseEveryNFrames s) 0) as [M | M];
          [ | reflexivity].
        exfalso. revert M. apply (no_multiple_within _ frame); lia.
  - destruct (Z.leb_spec (denoiseEveryNFrames s) frame) as [B | B].
    + rewrite Z.quot_div_nonneg by lia.
      pose proof (Z.div_mod frame (denoiseEveryNFrames s) ltac:(lia)) as E.
      pose proof (Z.mod_pos_bound frame (denoiseEveryNFrames s) ltac:(lia)) as Bm.
      assert (1 <= frame / denoiseEveryNFrames s)
        by (apply Z.div_le_lower_bound; lia).
      split; [intros E1; nia | intros _].
      split; [nia | split].
      * rewrite Inner by nia. rewrite Z.mod_mul by lia.
        destruct (Z.eqb_spec (frame / denoiseEveryNFrames s * denoiseEveryNFrames s) 0);
          [nia | reflexivity].
      * intros k Hk. rewrite Inner by nia.
        destruct (Z.eqb_spec (k mod denoiseEveryNFrames s) 0) as [M | M];
          [ | apply andb_false_r].
        exfalso. revert M. apply (no_multiple_within _ frame); lia.
    + split; [intros _ k Hk | intros H; contradiction H; reflexivity].
      rewrite Inner by lia.
      destruct (Z.eqb_spec k 0) as [K0 | K0]; [reflexivity | ].
      rewrite Z.mod_small by lia.
      destruct (Z.eqb_spec k 0); [lia | reflexivity].
Qed.

(** X3. Under one setting, [showDenoisedImage] holds at a frame index only if
    [needToDenoise] holds at that index or at an earlier one. (Nothing is
    said of frames rendered under earlier settings, nor of index -1.) *)
Theorem shown_image_was_denoised (s : Settings) (frame : Z) :
  0 <= frame <= maxFrames s ->
  1 <= denoiseEveryNFrames s ->
  showDenoisedImage s frame = true ->
  exists d : Z, 0 <= d <= frame /\ needToDenoise s d = true.
Proof.
  intros Hf Hn. unfold showDenoisedImage.
  rewrite andb_true_iff, !orb_true_iff, !Z.leb_le.
  intros [Ha [ [Hb | Hfirst] | Hlast] ].
  - destruct (Z.eq_dec frame (maxFrames s)) as [E | E].
    + exists frame. split; [lia | ]. rewrite E. apply needToDenoise_last, Ha.
    + exists (denoiseEveryNFrames s). split; [lia | ].
      rewrite needToDenoise_before_last by lia.
      rewrite Ha, Z.mod_same by lia.
      destruct (Z.eqb_spec (denoiseEveryNFrames s) 0); [lia | ].
      rewrite orb_true_r. reflexivity.
  - exists 0. split; [lia | ].
    destruct (Z.eq_dec 0 (maxFrames s)) as [E | E].
    + rewrite E. apply needToDenoise_last, Ha.
    + rewrite needToDenoise_before_last by lia.
      rewrite Ha, Hfirst, Z.mod_0_l by lia. reflexivity.
  - exists frame. split; [lia | ].
    replace frame with (maxFrames s) by lia. apply needToDenoise_last, Ha.
Qed.

(** X4. Before the last frame, two denoised frames past frame 0 are at least
    everyNFrames apart. *)
Theorem denoised_frames_apart (s : Settings) (j k : Z) :
  1 <= denoiseEveryNFrames s ->
  0 < j -> j < k -> k < maxFrames s ->
  needToDenoise s j = true ->
  needToDenoise s k = true ->
  denoiseEveryNFrames s <= k - j.
Proof.
  intros Hn H0 Hjk Hk.
  rewrite !needToDenoise_before_last by lia.
  rewrite !andb_true_iff, !Z.eqb_eq.
  intros [_ Mj] [_ Mk].
  pose proof (Z.div_mod j (denoiseEveryNFrames s) ltac:(lia)) as Ej.
  pose proof (Z.div_mod k (denoiseEveryNFrames s) ltac:(lia)) as Ek.
  rewrite Mj in Ej. rewrite Mk in Ek.
  assert (j / denoiseEveryNFrames s < k / denoiseEveryNFrames s) by nia.
  nia.
Qed.

Lemma denoised_frame_shown_witness :
  (1 <= denoiseEveryNFrames scenarioA /\ 0 <= maxFrames scenarioA)
  /\ (denoised_frame scenarioA 7 <> -1 <-> showDenoisedImage scenarioA 7 = true).
Proof.
  split; [cbn; lia | ].
  apply (denoised_frame_shown scenarioA 7); cbn; lia.
Defined.

Lemma denoised_frame_latest_witness :
  (0 <= 7 <= maxFrames scenarioA /\ 1 <= denoiseEveryNFrames scenarioA
   /\ denoised_frame scenarioA 7 = 5)
  /\ (0 <= denoised_frame scenarioA 7 <= 7
      /\ needToDenoise scenarioA (denoised_frame scenarioA 7) = true
      /\ forall k, denoised_frame scenarioA 7 < k <= 7 ->
                   needToDenoise scenarioA k = false).
Proof.
  split; [cbn; repeat split; lia | ].
  apply (proj2 (denoised_frame_latest scenarioA 7 ltac:(cbn; lia) ltac:(cbn; lia))).
  cbn. lia.
Defined.

Lemma shown_image_was_denoised_witness :
  (0 <= 7 <= maxFrames scenarioA /\ 1 <= denoiseEveryNFrames scenarioA
   /\ showDenoisedImage scenarioA 7 = true)
  /\ exists d : Z, 0 <= d <= 7 /\ needToDenoise scenarioA d = true.
Proof.
  split; [cbn; repeat split; lia | ].
  apply (shown_image_was_denoised scenarioA 7); cbn; try lia; reflexivity.
Defined.

Lemma denoised_frames_apart_witness :
  (1 <= denoiseEveryNFrames default_settings
   /\ 0 < 100 /\ 100 < 300 /\ 300 < maxFrames default_settings
   /\ needToDenoise default_settings 100 = true
   /\ needToDenoise default_settings 300 = true)
  /\ denoiseEveryNFrames default_settings <= 300 - 100.
Proof.
  split; [cbn; repeat split; lia | ].
  apply (denoised_frames_apart default_settings 100 300); cbn; try lia; reflexivity.
Defined.

(** ** The engine over whole sessions *)

Section Sessions.
Context `{P : Platform}.

(** [onUIRender] in closed form. *)
Lemma onUIRender_unfold (ui : UiInput) (e : Engine) :
  onUIRender ui e =
  let e1 := if ui_keyM ui
            then set_frame (-1)
                   (set_viewSize (float_of_uint32 (fst (ui_viewport ui)),
                                  float_of_uint32 (snd (ui_viewport ui))) e)
            else e in
  let e2 := set_settings (ui_settings ui (m_settings e1)) e1 in
  let e3 := match ui_blend ui with
            | Some b => set_blendFactor b e2
            | None => e2
            end in
  let e4 := if ui_reset ui then set_frame (-1) e3 else e3 in
  (tt, e4,
   (if ui_keyM ui
    then events_of (onResize (fst (ui_viewport ui)) (snd (ui_viewport ui)) e)
    else [])
   ++ [UpdateComputeDescriptorSets
         (if showDenoisedImage (m_settings e4) (m_frame e4)
          then eGbufDenoised else eGBufResult) eGBufLdr]).
Proof.
  unfold onUIRender, ui_reset. rewrite bind_run.
  destruct (ui_viewport ui) as [w h].
  destruct (ui_keyM ui); cbn [when fst snd]; [rewrite onResize_unfold | ];
    unfold bind, gets, modify, emit, ret, when, resetFrame,
      result, state_of, events_of; cbn [fst snd orb];
    destruct (ui_blend ui);
    try destruct (edited (ui_depth ui) || edited (ui_samples ui)
                  || edited (ui_frames ui) || ui_environment ui);
    try destruct NVP_SUPPORTS_OPTIX7; try destruct (scene_valid e);
    reflexivity.
Qed.

(** [onFileDrop] in closed form. *)
Lemma onFileDrop_unfold (f : DroppedFile) (e : Engine) :
  onFileDrop f e =
  (tt,
   set_frame (-1) (match f with
                   | FileGltf loaded => set_scene_valid loaded e
                   | _ => e
                   end),
   DeviceWaitIdle :: match f with FileGltf true => [WriteRtxSet] | _ => [] end).
Proof. destruct f as [ [ | ] | | ]; reflexivity. Qed.

(** Invariants and event properties carry over from single calls to runs. *)
Lemma run_calls_Forall (I : Engine -> Prop) (C : Callback -> Prop)
      (Q : Event -> Prop) :
  (forall c e, C c -> I e ->
     I (state_of (dispatch c e)) /\ Forall Q (events_of (dispatch c e))) ->
  forall cs e, Forall C cs -> I e ->
    I (state_of (run_calls cs e)) /\ Forall Q (events_of (run_calls cs e)).
Proof.
  intros Step cs. induction cs as [ | c cs IH]; intros e HC HI.
  - cbn. split; [exact HI | constructor].
  - cbn [run_calls]. rewrite bind_run. cbn [state_of events_of fst snd].
    inversion HC as [ | c' cs' Hc Hcs]; subst.
    destruct (Step c e Hc HI) as [HI1 HQ1].
    destruct (IH _ Hcs HI1) as [HI2 HQ2].
    split; [exact HI2 | ].
    apply Forall_app. split; assumption.
Qed.

(** [onAttach] in closed form. *)
Lemma onAttach_unfold (e : Engine) :
  onAttach e =
  let s := m_settings e in
  let e1 := if NVP_SUPPORTS_OPTIX7 then e
            else set_settings
                   (mkSettings (maxFrames s) (maxSamples s) (maxDepth s) false
                               (denoiseFirstFrame s) (denoiseEveryNFrames s)) e in
  (tt, set_frame (-1) (set_viewSize (fst (m_viewSize e), snd (m_viewSize e)) e1),
   CreateGBuffers (uint32_of_float (fst (m_viewSize e)))
                  (uint32_of_float (snd (m_viewSize e)))
   :: (if NVP_SUPPORTS_OPTIX7
       then [AllocateBuffers (uint32_of_float (fst (m_viewSize e)))
                             (uint32_of_float (snd (m_viewSize e)))]
       else [])).
Proof.
  unfold onAttach. rewrite bind_run.
  destruct NVP_SUPPORTS_OPTIX7 eqn:X; cbn [negb when];
    rewrite bind_run, createGbuffers_unfold, X;
    unfold bind, gets, modify, ret, result, state_of, events_of;
    cbn [fst snd]; reflexivity.
Qed.

Lemma traced_frames_app (l1 l2 : list Event) :
  traced_frames (l1 ++ l2) = traced_frames l1 ++ traced_frames l2.
Proof.
  induction l1 as [ | ev l1 IH]; [reflexivity | ].
  destruct ev; cbn; rewrite IH, ?app_assoc; reflexivity.
Qed.

(** What one call pushes to the ray tracer: nothing, the frame index staying
    or falling back to -1; or one frame, which is frame 0 or the successor of
    the index before the call, and is the index after it. *)
Lemma dispatch_traced (c : Callback) (e : Engine) :
  let r := dispatch c e in
  (traced_frames (events_of r) = []
   /\ (m_frame (state_of r) = m_frame e \/ m_frame (state_of r) = -1))
  \/ (exists f : Z,
        traced_frames (events_of r) = [f]
        /\ (f = 0 \/ f = m_frame e + 1)
        /\ m_frame (state_of r) = f).
Proof.
  destruct c as [w h | f | ui | cycle cam]; cbn [dispatch]; cbn zeta.
  - left. rewrite onResize_unfold. destruct NVP_SUPPORTS_OPTIX7, (scene_valid e); cbn; auto.
  - left. rewrite onFileDrop_unfold. destruct f as [ [ | ] | | ]; cbn; auto.
  - left. rewrite onUIRender_unfold, onResize_unfold. cbn zeta.
    cbn [events_of state_of fst snd]. rewrite traced_frames_app.
    destruct (ui_keyM ui), (ui_reset ui), (ui_blend ui), NVP_SUPPORTS_OPTIX7,
      (scene_valid e); cbn; auto.
  - rewrite onRender_unfold.
    unfold frame_rendered, denoise_active, after_update.
    rewrite updateFrame_unfold. cbn zeta.
    destruct (scene_valid e); cbn [andb negb]; [ | left; cbn; auto].
    destruct (camera_differs (ref_camera e) cam); cbn [m_settings m_frame set_ref_camera set_frame].
    + destruct (Z.leb_spec (maxFrames (m_settings e)) (-1)); cbn [result state_of fst snd negb].
      * left. cbn. auto.
      * right. exists 0. 
        destruct (NVP_SUPPORTS_OPTIX7 && _); cbn; auto.
    + destruct (Z.leb_spec (maxFrames (m_settings e)) (m_frame e)); cbn [result state_of fst snd negb].
      * left. cbn. auto.
      * right. exists (m_frame e + 1).
        destruct (NVP_SUPPORTS_OPTIX7 && _); cbn; auto.
Qed.

Lemma accumulates_restart (p : Z) (l : list Z) :
  accumulates (-1) l -> accumulates p l.
Proof.
  destruct l as [ | f l]; cbn; [trivial | ].
  intros [ [E | E] H]; split; auto.
Qed.

Lemma run_calls_accumulates (cs : list Callback) :
  forall e : Engine,
    accumulates (m_frame e) (traced_frames (events_of (run_calls cs e))).
Proof.
  induction cs as [ | c cs IH]; intros e; [exact I | ].
  cbn [run_calls]. rewrite bind_run. cbn [events_of snd].
  rewrite traced_frames_app.
  specialize (IH (state_of (dispatch c e))).
  fold (events_of (run_calls cs (state_of (dispatch c e)))).
  fold (events_of (dispatch c e)).
  destruct (dispatch_traced c e) as [ [T [F | F] ] | (f & T & F & M) ];
    cbn zeta in *; rewrite T; cbn [app].
  - rewrite <- F. exact IH.
  - rewrite F in IH. apply accumulates_restart, IH.
  - rewrite M in IH. split; assumption.
Qed.

(** X6. Over any session the frame indices pushed to the ray tracer start at 0,
    and each one is 0 again or the successor of the one before: within an
    accumulation no index is skipped or pushed twice. *)
Theorem session_accumulates (ref0 : Camera) (cs : list Callback) :
  accumulates (-1) (traced_frames (events_of (session ref0 cs))).
Proof.
  unfold session. rewrite bind_run. cbn [events_of snd].
  rewrite traced_frames_app, onAttach_unfold. cbn zeta.
  cbn [events_of state_of fst snd].
  replace (traced_frames _) with (@nil Z)
    by (destruct NVP_SUPPORTS_OPTIX7; reflexivity).
  cbn [app].
  match goal with
  | |- accumulates _ (traced_frames (events_of (run_calls cs ?e0))) =>
      exact (run_calls_accumulates cs e0)
  end.
Qed.

Lemma traced_frames_Forall (Q : Z -> Prop) (l : list Event) :
  Forall (fun ev => Forall Q (traced_frames [ev])) l ->
  Forall Q (traced_frames l).
Proof.
  induction 1 as [ | ev l H _ IH]; [constructor | ].
  change (ev :: l) with ([ev] ++ l). rewrite traced_frames_app.
  apply Forall_app. split; assumption.
Qed.

Lemma dispatch_frame_bounded (c : Callback) (e : Engine) :
  frames_edit_in_range c ->
  frame_bounded e ->
  frame_bounded (state_of (dispatch c e))
  /\ Forall (fun ev => Forall (fun f => 0 <= f <= 1000000) (traced_frames [ev]))
            (events_of (dispatch c e)).
Proof.
  unfold frame_bounded. intros HC [Hf Hm].
  destruct c as [w h | f | ui | cycle cam]; cbn [dispatch].
  - rewrite onResize_unfold. cbn. split; [lia | ].
    destruct NVP_SUPPORTS_OPTIX7, (scene_valid e); repeat (constructor; cbn).
  - rewrite onFileDrop_unfold.
    destruct f as [ [ | ] | | ]; cbn; (split; [lia | repeat (constructor; cbn)]).
  - rewrite onUIRender_unfold, onResize_unfold. cbn zeta.
    cbn [events_of state_of fst snd].
    cbn [frames_edit_in_range] in HC.
    unfold ui_reset, ui_settings, edit_int, edited.
    destruct (ui_frames ui) as [v | ]; destruct (ui_keyM ui), (ui_depth ui),
      (ui_samples ui), (ui_environment ui), (ui_blend ui), NVP_SUPPORTS_OPTIX7,
      (scene_valid e);
      cbn; (split; [lia | repeat (constructor; cbn)]).
  - rewrite onRender_unfold.
    unfold frame_rendered, denoise_active, after_update.
    rewrite updateFrame_unfold. cbn zeta.
    destruct (scene_valid e); cbn [andb negb];
      [ | cbn; split; [lia | constructor] ].
    destruct (camera_differs (ref_camera e) cam);
      cbn [m_settings m_frame set_ref_camera set_frame].
    + destruct (Z.leb_spec (maxFrames (m_settings e)) (-1));
        cbn [result state_of fst snd negb]; [lia | ].
      destruct (NVP_SUPPORTS_OPTIX7 && _); cbn;
        (split; [lia | repeat (constructor; cbn); lia]).
    + destruct (Z.leb_spec (maxFrames (m_settings e)) (m_frame e));
        cbn [result state_of fst snd negb].
      * cbn. split; [lia | constructor].
      * destruct (NVP_SUPPORTS_OPTIX7 && _); cbn;
          (split; [lia | repeat (constructor; cbn); lia]).
Qed.

(** X7. Over any session in which the "Frames" box is edited within its range:
    the frame index stays between -1 and maxFrames, also when maxFrames is
    lowered below it (the edit resets the index), maxFrames stays within
    1..1000000, and every frame index pushed to the ray tracer is between 0
    and 1000000. In particular [m_frame++] never leaves [int]. *)
Theorem session_frame_bounded (ref0 : Camera) (cs : list Callback) :
  Forall frames_edit_in_range cs ->
  let r := session ref0 cs in
  -1 <= m_frame (state_of r) <= maxFrames (m_settings (state_of r))
  /\ 1 <= maxFrames (m_settings (state_of r)) <= 1000000
  /\ Forall (fun f => 0 <= f <= 1000000) (traced_frames (events_of r)).
Proof.
  intros HC. cbn zeta. unfold session. rewrite bind_run.
  cbn [state_of events_of fst snd].
  rewrite traced_frames_app, onAttach_unfold. cbn zeta.
  cbn [events_of state_of fst snd].
  replace (traced_frames _) with (@nil Z)
    by (destruct NVP_SUPPORTS_OPTIX7; reflexivity).
  cbn [app].
  match goal with
  | |- context [run_calls cs ?e0] =>
      destruct (run_calls_Forall frame_bounded frames_edit_in_range _
                  dispatch_frame_bounded cs e0 HC) as [ [Hf Hm] HQ]
  end.
  { unfold frame_bounded. destruct NVP_SUPPORTS_OPTIX7; cbn; lia. }
  unfold state_of, events_of in *.
  split; [exact Hf | split; [exact Hm | ] ].
  apply traced_frames_Forall, HQ.
Qed.

(** *** A build without OptiX *)

Lemma dispatch_pass_through (c : Callback) (e : Engine) :
  NVP_SUPPORTS_OPTIX7 = false ->
  True ->
  m_fenceValue e = 0 ->
  m_fenceValue (state_of (dispatch c e)) = 0
  /\ Forall (fun ev => pass_through ev = true) (events_of (dispatch c e)).
Proof.
  intros HX _ H0.
  destruct c as [w h | f | ui | cycle cam]; cbn [dispatch].
  - rewrite onResize_unfold, HX.
    destruct (scene_valid e); cbn; (split; [exact H0 | repeat constructor]).
  - rewrite onFileDrop_unfold.
    destruct f as [ [ | ] | | ]; cbn; (split; [exact H0 | repeat constructor]).
  - rewrite onUIRender_unfold, onResize_unfold, HX. cbn zeta.
    cbn [events_of state_of fst snd].
    destruct (ui_keyM ui), (ui_reset ui), (ui_blend ui), (scene_valid e);
      cbn; (split; [exact H0 | repeat constructor]).
  - rewrite onRender_unfold. unfold denoise_active. rewrite HX. cbn [andb].
    destruct (updateFrame_keeps cam e) as (_ & Kf & _).
    fold (after_update cam e) in Kf.
    destruct (frame_rendered cam e); cbn [negb]; cbn zeta;
      cbn [state_of events_of fst snd].
    + split; [rewrite Kf; exact H0 | repeat constructor].
    + split; [ | constructor].
      destruct (scene_valid e); [rewrite Kf | ]; exact H0.
Qed.

(** X8. In a build without OptiX no session ever touches the timeline semaphore
    or the denoiser, whatever the panel is set to: nothing is submitted with
    a signal, the denoiser is never invoked, no wait is registered, no
    denoiser buffer is allocated, and every command buffer handed over is
    the first of its frame and holds no copy to or from the denoiser. *)
Theorem session_without_optix (ref0 : Camera) (cs : list Callback) :
  NVP_SUPPORTS_OPTIX7 = false ->
  let r := session ref0 cs in
  Forall (fun ev => pass_through ev = true) (events_of r)
  /\ m_fenceValue (state_of r) = 0.
Proof.
  intros HX. cbn zeta. unfold session. rewrite bind_run.
  cbn [state_of events_of fst snd].
  rewrite onAttach_unfold, HX. cbn zeta. cbn [events_of state_of fst snd].
  match goal with
  | |- context [run_calls cs ?e0] =>
      destruct (run_calls_Forall (fun e => m_fenceValue e = 0) (fun _ => True) _
                  (fun c e => dispatch_pass_through c e HX) cs e0)
        as [H0 HQ]
  end.
  { apply Forall_forall. intros; exact I. }
  { reflexivity. }
  unfold state_of, events_of in *.
  split; [ | exact H0].
  apply Forall_app. split; [repeat constructor | exact HQ].
Qed.

(** *** Before a scene is loaded *)




End Sessions.

(** ** Single frames *)

Section Rendering.
Context `{P : Platform}.

(** X10. [onRender] hands something over exactly when the scene is valid and the
    frame counter can advance: below maxFrames with the camera at rest, or
    from the reset with a camera that moved. With no valid scene, or at
    maxFrames with the camera at rest, it changes nothing at all. *)
Theorem onRender_renders_iff (cycle : nat) (cam : Camera) (e : Engine) :
  (events_of (onRender cycle cam e) <> [] <->
   scene_valid e = true
   /\ (if camera_differs (ref_camera e) cam
       then 0 <= maxFrames (m_settings e)
       else m_frame e < maxFrames (m_settings e)))
  /\ (scene_valid e = false
      \/ (camera_differs (ref_camera e) cam = false
          /\ maxFrames (m_settings e) <= m_frame e) ->
      onRender cycle cam e = (tt, e, [])).
Proof.
  rewrite onRender_unfold.
  unfold frame_rendered, denoise_active, after_update.
  rewrite updateFrame_unfold. cbn zeta.
  destruct (scene_valid e); cbn [andb negb].
  2: { split; [ | reflexivity].
       split; [intros H; contradiction H; reflexivity | intros [H _]; discriminate H]. }
  destruct (camera_differs (ref_camera e) cam);
    cbn [m_settings m_frame set_ref_camera set_frame].
  - destruct (Z.leb_spec (maxFrames (m_settings e)) (-1));
      cbn [result state_of events_of fst snd negb].
    + split; [ | intros [H0 | [H0 _] ]; discriminate H0].
      split; [intros H0; contradiction H0; reflexivity | intros [_ H0]; lia].
    + split; [ | intros [H0 | [H0 _] ]; discriminate H0].
      split; [intros _; split; [reflexivity | lia] | intros _].
      destruct (NVP_SUPPORTS_OPTIX7 && _); discriminate.
  - destruct (Z.leb_spec (maxFrames (m_settings e)) (m_frame e));
      cbn [result state_of events_of fst snd negb].
    + split; [ | reflexivity].
      split; [intros H0; contradiction H0; reflexivity | intros [_ H0]; lia].
    + split; [ | intros [H0 | [_ H0] ]; [discriminate H0 | lia] ].
      split; [intros _; split; [reflexivity | lia] | intros _].
      destruct (NVP_SUPPORTS_OPTIX7 && _); discriminate.
Qed.

(** One call of [onRender] on a valid scene with the camera at rest. *)
Lemma onRender_at_rest (cycle : nat) (cam : Camera) (e : Engine) :
  scene_valid e = true ->
  camera_differs (ref_camera e) cam = false ->
  (maxFrames (m_settings e) <= m_frame e -> onRender cycle cam e = (tt, e, []))
  /\ (m_frame e < maxFrames (m_settings e) ->
      let r := onRender cycle cam e in
      traced_frames (events_of r) = [m_frame e + 1]
      /\ m_frame (state_of r) = m_frame e + 1
      /\ m_settings (state_of r) = m_settings e
      /\ scene_valid (state_of r) = true
      /\ ref_camera (state_of r) = ref_camera e).
Proof.
  intros Hv Hc.
  rewrite onRender_unfold.
  unfold frame_rendered, denoise_active, after_update.
  rewrite updateFrame_unfold, Hv, Hc. cbn zeta. cbn [andb].
  destruct (Z.leb_spec (maxFrames (m_settings e)) (m_frame e));
    cbn [result state_of events_of fst snd negb].
  - split; [reflexivity | lia].
  - split; [lia | intros _].
    destruct (NVP_SUPPORTS_OPTIX7 && _); cbn; rewrite Hv; repeat split; reflexivity.
Qed.

(** X11. With the camera at rest, a row of [onRender] calls renders the frames
    that are left up to maxFrames, with consecutive indices, and does
    nothing from then on. *)
Theorem renders_until_maxFrames (cam : Camera) (cycles : list nat) (e : Engine) :
  scene_valid e = true ->
  camera_differs (ref_camera e) cam = false ->
  m_frame e <= maxFrames (m_settings e) ->
  let r := run_calls (render_calls cam cycles) e in
  let left := maxFrames (m_settings e) - m_frame e in
  let n := Z.to_nat (Z.min (Z.of_nat (length cycles)) left) in
  traced_frames (events_of r) = count_from (m_frame e) n
  /\ m_frame (state_of r) = m_frame e + Z.of_nat n.
Proof.
  revert e. induction cycles as [ | cycle cycles IH]; intros e Hv Hc Hf; cbn zeta.
  - cbn. rewrite Z.min_l by lia. cbn. split; [reflexivity | lia].
  - cbn [render_calls map run_calls dispatch]. rewrite bind_run.
    cbn [state_of events_of fst snd]. rewrite traced_frames_app.
    fold (render_calls cam cycles).
    destruct (onRender_at_rest cycle cam e Hv Hc) as [Hidle Hstep].
    destruct (Z.le_gt_cases (maxFrames (m_settings e)) (m_frame e)) as [L | L].
    + rewrite (Hidle L). cbn [result state_of events_of fst snd traced_frames app].
      specialize (IH e Hv Hc Hf). cbn zeta in IH.
      unfold state_of, events_of in IH.
      rewrite Z.min_r in IH by lia. rewrite Z.min_r by lia.
      exact IH.
    + destruct (Hstep L) as (Ht & Em & Es & Ev & Er). clear Hstep Hidle.
      unfold state_of, events_of in *.
      set (e1 := snd (fst (onRender cycle cam e))) in *.
      rewrite Ht.
      specialize (IH e1 Ev ltac:(rewrite Er; exact Hc) ltac:(rewrite Es, Em; lia)).
      cbn zeta in IH. unfold state_of, events_of in IH.
      rewrite Es, Em in IH. destruct IH as [IHt IHf].
      rewrite IHt, IHf.
      replace (Z.to_nat (Z.min (Z.of_nat (length (cycle :: cycles)))
                               (maxFrames (m_settings e) - m_frame e)))
        with (S (Z.to_nat (Z.min (Z.of_nat (length cycles))
                                 (maxFrames (m_settings e) - (m_frame e + 1)))))
        by (cbn [length]; lia).
      cbn [count_from app]. split; [reflexivity | lia].
Qed.

(** X12. In a build with OptiX and denoising enabled, the frame that reaches
    maxFrames is denoised whatever the cadence: it is handed over as two
    command buffers around an invocation of the denoiser; from then on the
    denoised image is the one to display, and [onRender] does nothing as
    long as the camera rests. *)
Theorem last_frame_denoised (cycle next : nat) (cam : Camera) (e : Engine) :
  NVP_SUPPORTS_OPTIX7 = true ->
  scene_valid e = true ->
  camera_differs (ref_camera e) cam = false ->
  denoiseApply (m_settings e) = true ->
  m_frame e + 1 = maxFrames (m_settings e) ->
  let r := onRender cycle cam e in
  length (command_buffers (events_of r)) = 2%nat
  /\ length (denoise_invocations (events_of r)) = 1%nat
  /\ traced_frames (events_of r) = [maxFrames (m_settings e)]
  /\ showDenoisedImage (m_settings (state_of r)) (m_frame (state_of r)) = true
  /\ onRender next cam (state_of r) = (tt, state_of r, []).
Proof.
  intros HX Hv Hc Ha Hlast. cbn zeta.
  assert (Step : onRender cycle cam e
                 = (tt,
                    set_fenceValue (wrap64 (wrap64 (m_fenceValue e + 1) + 1))
                                   (set_frame (maxFrames (m_settings e)) e),
                    chained_events cycle (set_frame (maxFrames (m_settings e)) e)
                                   (wrap64 (m_fenceValue e + 1))
                                   (wrap64 (wrap64 (m_fenceValue e + 1) + 1)))).
  { rewrite onRender_unfold.
    unfold frame_rendered, denoise_active, after_update.
    rewrite updateFrame_unfold, Hv, Hc, HX. cbn zeta. cbn [andb].
    destruct (Z.leb_spec (maxFrames (m_settings e)) (m_frame e)); [lia | ].
    cbn [result state_of events_of fst snd negb m_settings m_frame set_frame].
    rewrite Hlast, needToDenoise_last by exact Ha. reflexivity. }
  rewrite Step. cbn [state_of events_of fst snd].
  split; [reflexivity | split; [reflexivity | split; [reflexivity | split] ] ].
  - cbn. unfold showDenoisedImage. rewrite Ha, Z.leb_refl, orb_true_r. reflexivity.
  - refine (proj1 (onRender_at_rest next cam _ _ _) _);
      [exact Hv | exact Hc | cbn; lia].
Qed.

(** When the frame index is -1, the next frame rendered is frame 0, whether
    the camera moved or not. *)
Lemma onRender_from_reset (cycle : nat) (cam : Camera) (e : Engine) :
  m_frame e = -1 ->
  scene_valid e = true ->
  0 <= maxFrames (m_settings e) ->
  traced_frames (events_of (onRender cycle cam e)) = [0].
Proof.
  intros Hf Hv Hm.
  rewrite onRender_unfold.
  unfold frame_rendered, denoise_active, after_update.
  rewrite updateFrame_unfold, Hv. cbn zeta. cbn [andb].
  destruct (camera_differs (ref_camera e) cam);
    cbn [m_settings m_frame set_ref_camera set_frame]; rewrite ?Hf;
    (destruct (Z.leb_spec (maxFrames (m_settings e)) (-1)); [lia | ]);
    cbn [result state_of events_of fst snd negb];
    destruct (NVP_SUPPORTS_OPTIX7 && _); reflexivity.
Qed.

(** X13. After a resize, a dropped file, or a panel in which the key M, a
    ray-tracing setting or the environment was touched, the accumulation
    starts again: the next frame rendered is frame 0. *)
Theorem restart_renders_frame_zero
        (c : Callback) (cycle : nat) (cam : Camera) (e : Engine) :
  restarting c = true ->
  let e1 := state_of (dispatch c e) in
  scene_valid e1 = true ->
  0 <= maxFrames (m_settings e1) ->
  m_frame e1 = -1
  /\ traced_frames (events_of (onRender cycle cam e1)) = [0].
Proof.
  intros Hc e1 Hv Hm.
  assert (Hf : m_frame e1 = -1).
  { subst e1. destruct c as [w h | f | ui | cycle' cam']; cbn [dispatch restarting] in *.
    - rewrite onResize_unfold. reflexivity.
    - rewrite onFileDrop_unfold. reflexivity.
    - rewrite onUIRender_unfold. cbn zeta. rewrite Hc. reflexivity.
    - discriminate Hc. }
  split; [exact Hf | ].
  apply onRender_from_reset; assumption.
Qed.

(** X14. A panel in which only the denoiser's widgets were touched does not
    restart the accumulation: the frame index, the fence value, the view
    size, the scene and the ray-tracing settings are as before, and nothing
    is recreated. *)
Theorem denoiser_panel_keeps_accumulating (ui : UiInput) (e : Engine) :
  ui_reset ui = false ->
  let r := onUIRender ui e in
  m_frame (state_of r) = m_frame e
  /\ m_fenceValue (state_of r) = m_fenceValue e
  /\ m_viewSize (state_of r) = m_viewSize e
  /\ scene_valid (state_of r) = scene_valid e
  /\ maxFrames (m_settings (state_of r)) = maxFrames (m_settings e)
  /\ maxSamples (m_settings (state_of r)) = maxSamples (m_settings e)
  /\ maxDepth (m_settings (state_of r)) = maxDepth (m_settings e)
  /\ reallocations (events_of r) = []
  /\ length (events_of r) = 1%nat.
Proof.
  intros Hr. cbn zeta. rewrite onUIRender_unfold. cbn zeta. rewrite Hr.
  unfold ui_reset in Hr. unfold ui_settings.
  destruct (ui_keyM ui); [discriminate Hr | ].
  destruct (ui_depth ui); [discriminate Hr | ].
  destruct (ui_samples ui); [discriminate Hr | ].
  destruct (ui_frames ui); [discriminate Hr | ].
  destruct (ui_blend ui); cbn; repeat split; reflexivity.
Qed.

End Rendering.

(** ** Command buffers over a session *)

Section Accounting.
Context `{P : Platform}.




End Accounting.

(** ** Concrete runs of the further properties *)

Lemma updateFrame_int_range_witness :
  (int_range (maxFrames (m_settings accumulating_engine))
   /\ int_range (m_frame accumulating_engine))
  /\ int_range (m_frame (state_of (@updateFrame optix_build 0 accumulating_engine))).
Proof.
  assert (H1 : int_range (maxFrames (m_settings accumulating_engine)))
    by (unfold int_range, INT_MIN, INT_MAX; cbn; lia).
  assert (H2 : int_range (m_frame accumulating_engine))
    by (unfold int_range, INT_MIN, INT_MAX; cbn; lia).
  split; [split; assumption | ].
  apply (@updateFrame_int_range optix_build 0 accumulating_engine H1 H2).
Defined.

Lemma session_frame_bounded_witness :
  Forall frames_edit_in_range lower_frames_calls
  /\ (let r := @session optix_build 0 lower_frames_calls in
      -1 <= m_frame (state_of r) <= maxFrames (m_settings (state_of r))
      /\ 1 <= maxFrames (m_settings (state_of r)) <= 1000000
      /\ Forall (fun f => 0 <= f <= 1000000) (traced_frames (events_of r))).
Proof.
  assert (H : Forall frames_edit_in_range lower_frames_calls)
    by (repeat constructor; cbn; lia).
  split; [exact H | ].
  apply (@session_frame_bounded optix_build 0 lower_frames_calls H).
Defined.

(** Lowering "Frames" to 2 restarts the count, which then stops at 2. *)
Example lower_frames_run :
  let r := @session optix_build 0 lower_frames_calls in
  traced_frames (events_of r) = [0; 1; 2; 3; 4; 0; 1; 2]
  /\ m_frame (state_of r) = 2.
Proof. vm_compute. split; reflexivity. Qed.

Lemma session_without_optix_witness :
  @NVP_SUPPORTS_OPTIX7 plain_build = false
  /\ (let r := @session plain_build 0 reenable_calls in
      Forall (fun ev => pass_through ev = true) (events_of r)
      /\ m_fenceValue (state_of r) = 0).
Proof.
  split; [reflexivity | ].
  apply (@session_without_optix plain_build 0 reenable_calls). reflexivity.
Defined.


Lemma onRender_renders_iff_witness :
  (@camera_differs optix_build (ref_camera converged_engine) 0 = false
   /\ maxFrames (m_settings converged_engine) <= m_frame converged_engine)
  /\ @onRender optix_build 0%nat 0 converged_engine = (tt, converged_engine, []).
Proof.
  assert (H : @camera_differs optix_build (ref_camera converged_engine) 0 = false
              /\ maxFrames (m_settings converged_engine) <= m_frame converged_engine)
    by (split; [reflexivity | cbn; lia]).
  split; [exact H | ].
  apply (proj2 (@onRender_renders_iff optix_build 0%nat 0 converged_engine)).
  right. exact H.
Defined.

Lemma renders_until_maxFrames_witness :
  (scene_valid accumulating_engine = true
   /\ @camera_differs optix_build (ref_camera accumulating_engine) 0 = false
   /\ m_frame accumulating_engine <= maxFrames (m_settings accumulating_engine))
  /\ (let r := run_calls (@render_calls optix_build 0 [0; 1; 2; 0; 1; 2; 0; 1; 2]%nat)
                         accumulating_engine in
      traced_frames (events_of r) = [4; 5; 6; 7; 8; 9; 10]
      /\ m_frame (state_of r) = 10).
Proof.
  split; [repeat split; try reflexivity; cbn; lia | ].
  apply (@renders_until_maxFrames optix_build 0 [0; 1; 2; 0; 1; 2; 0; 1; 2]%nat
           accumulating_engine eq_refl eq_refl ltac:(cbn; lia)).
Defined.

Lemma last_frame_denoised_witness :
  (@NVP_SUPPORTS_OPTIX7 optix_build = true
   /\ scene_valid final_engine = true
   /\ @camera_differs optix_build (ref_camera final_engine) 0 = false
   /\ denoiseApply (m_settings final_engine) = true
   /\ m_frame final_engine + 1 = maxFrames (m_settings final_engine))
  /\ (let r := @onRender optix_build 0%nat 0 final_engine in
      length (command_buffers (events_of r)) = 2%nat
      /\ length (denoise_invocations (events_of r)) = 1%nat
      /\ traced_frames (events_of r) = [maxFrames (m_settings final_engine)]
      /\ showDenoisedImage (m_settings (state_of r)) (m_frame (state_of r)) = true
      /\ @onRender optix_build 1%nat 0 (state_of r) = (tt, state_of r, [])).
Proof.
  split; [repeat split; reflexivity | ].
  apply (@last_frame_denoised optix_build 0%nat 1%nat 0 final_engine
           eq_refl eq_refl eq_refl eq_refl eq_refl).
Defined.

Lemma restart_renders_frame_zero_witness :
  (restarting (@CallResize optix_build 640 480) = true
   /\ scene_valid (state_of (dispatch (@CallResize optix_build 640 480)
                                      accumulating_engine)) = true
   /\ 0 <= maxFrames (m_settings (state_of (dispatch (@CallResize optix_build 640 480)
                                                     accumulating_engine))))
  /\ m_frame (state_of (dispatch (@CallResize optix_build 640 480)
                                 accumulating_engine)) = -1
  /\ traced_frames
       (events_of (@onRender optix_build 0%nat 0
                     (state_of (dispatch (@CallResize optix_build 640 480)
                                         accumulating_engine)))) = [0].
Proof.
  split; [repeat split; try reflexivity; cbn; lia | ].
  apply (@restart_renders_frame_zero optix_build (@CallResize optix_build 640 480)
           0%nat 0 accumulating_engine eq_refl eq_refl ltac:(cbn; lia)).
Defined.

Lemma denoiser_panel_keeps_accumulating_witness :
  ui_reset denoiser_only_ui = false
  /\ m_frame (state_of (onUIRender denoiser_only_ui accumulating_engine))
     = m_frame accumulating_engine
  /\ denoiseApply (m_settings (state_of (onUIRender denoiser_only_ui accumulating_engine)))
     = false
  /\ denoiseEveryNFrames
       (m_settings (state_of (onUIRender denoiser_only_ui accumulating_engine))) = 7.
Proof.
  split; [reflexivity | ].
  split; [ | split; reflexivity].
  apply (proj1 (@denoiser_panel_keeps_accumulating optix_build denoiser_only_ui
                  accumulating_engine eq_refl)).
Defined.

(** ** A camera that moves *)

Section CameraMove.
Context `{P : Platform}.

(** X16. A camera that moved restarts the accumulation once: [updateFrame] takes
    the new camera as its reference, so the frame rendered on the move is
    frame 0 and the one after it, the camera resting where it is, is
    frame 1. *)
Theorem camera_move_restarts_once (c1 c2 : nat) (cam : Camera) (e : Engine) :
  scene_valid e = true ->
  camera_differs (ref_camera e) cam = true ->
  camera_differs cam cam = false ->
  1 <= maxFrames (m_settings e) ->
  let r := run_calls (render_calls cam [c1; c2]) e in
  traced_frames (events_of r) = [0; 1]
  /\ m_frame (state_of r) = 1
  /\ ref_camera (state_of r) = cam.
Proof.
  intros Hv Hd Hrest Hm. cbn zeta.
  cbn [render_calls map run_calls dispatch].
  rewrite !bind_run. cbn [state_of events_of result fst snd ret].
  rewrite app_nil_r, traced_frames_app.
  assert (First : let r1 := onRender c1 cam e in
                  traced_frames (events_of r1) = [0]
                  /\ m_frame (state_of r1) = 0
                  /\ ref_camera (state_of r1) = cam
                  /\ scene_valid (state_of r1) = true
                  /\ m_settings (state_of r1) = m_settings e).
  { cbn zeta. rewrite onRender_unfold.
    unfold frame_rendered, denoise_active, after_update.
    rewrite updateFrame_unfold, Hv, Hd. cbn zeta. cbn [andb].
    cbn [m_settings m_frame set_ref_camera set_frame].
    destruct (Z.leb_spec (maxFrames (m_settings e)) (-1)); [lia | ].
    cbn [result state_of events_of fst snd negb].
    destruct (NVP_SUPPORTS_OPTIX7 && _); cbn; rewrite Hv; repeat split; reflexivity. }
  cbn zeta in First. unfold state_of, events_of in *.
  destruct First as (T1 & F1 & R1 & V1 & S1).
  set (e1 := snd (fst (onRender c1 cam e))) in *.
  destruct (onRender_at_rest c2 cam e1 V1 ltac:(rewrite R1; exact Hrest)) as [_ Step].
  destruct (Step ltac:(rewrite S1, F1; lia)) as (T2 & F2 & _ & _ & R2).
  unfold state_of, events_of in *.
  rewrite T1, T2, F2, F1, R2, R1. repeat split; reflexivity.
Qed.

End CameraMove.

Lemma camera_move_restarts_once_witness :
  (scene_valid accumulating_engine = true
   /\ @camera_differs optix_build (ref_camera accumulating_engine) 5 = true
   /\ @camera_differs optix_build 5 5 = false
   /\ 1 <= maxFrames (m_settings accumulating_engine))
  /\ (let r := run_calls (@render_calls optix_build 5 [0; 1]%nat) accumulating_engine in
      traced_frames (events_of r) = [0; 1]
      /\ m_frame (state_of r) = 1
      /\ ref_camera (state_of r) = 5).
Proof.
  split; [repeat split; try reflexivity; cbn; lia | ].
  apply (@camera_move_restarts_once optix_build 0%nat 1%nat 5 accumulating_engine
           eq_refl eq_refl eq_refl ltac:(cbn; lia)).
Defined.

(** ** The timeline semaphore, frame by frame *)

Section Chain.
Context `{P : Platform}.

Lemma timeline_ops_app (l1 l2 : list Event) :
  timeline_ops (l1 ++ l2) = timeline_ops l1 ++ timeline_ops l2.
Proof.
  induction l1 as [ | ev l1 IH]; [reflexivity | ].
  destruct ev; cbn; rewrite IH; reflexivity.
Qed.

(** A call that does not render a denoised frame leaves the timeline alone;
    one that does takes the next two values of the counter: it submits with
    the first as signal, invokes the denoiser to wait on the first and
    signal the second, and registers the wait on the second. *)
Lemma dispatch_chain (c : Callback) (e : Engine) :
  0 <= m_fenceValue e ->
  m_fenceValue e + 2 < UINT64_MOD ->
  let r := dispatch c e in
  let v := m_fenceValue e in
  (denoises c e = false
   /\ m_fenceValue (state_of r) = v
   /\ timeline_free (events_of r)
   /\ timeline_ops (events_of r) = [])
  \/ (denoises c e = true
      /\ m_fenceValue (state_of r) = v + 2
      /\ signalled (events_of r) = [v + 1; v + 2]
      /\ submission_signals (events_of r) = [v + 1]
      /\ denoise_invocations (events_of r) = [(v + 1, v + 2)]
      /\ render_waits (events_of r) = [v + 2]
      /\ timeline_ops (events_of r)
         = [OpSignal (v + 1); OpDenoise (v + 1) (v + 2); OpWait (v + 2)]).
Proof.
  intros H0 H2.
  destruct c as [w h | f | ui | cycle cam]; cbn [dispatch denoises]; cbn zeta.
  - left. split; [reflexivity | ].
    rewrite onResize_unfold.
    destruct NVP_SUPPORTS_OPTIX7, (scene_valid e);
      cbn; unfold timeline_free; cbn; repeat split; reflexivity.
  - left. split; [reflexivity | ].
    rewrite onFileDrop_unfold.
    destruct f as [ [ | ] | | ];
      cbn; unfold timeline_free; cbn; repeat split; reflexivity.
  - left. split; [reflexivity | ].
    rewrite onUIRender_unfold, onResize_unfold. cbn zeta.
    destruct (ui_keyM ui), (ui_reset ui), (ui_blend ui), NVP_SUPPORTS_OPTIX7,
      (scene_valid e);
      cbn; unfold timeline_free; cbn; repeat split; reflexivity.
  - rewrite onRender_unfold.
    destruct (updateFrame_keeps cam e) as (_ & Kf & _).
    fold (after_update cam e) in Kf.
    destruct (frame_rendered cam e); cbn [negb andb].
    + cbn zeta. destruct (denoise_active cam e).
      * right. split; [reflexivity | ].
        rewrite (wrap64_small (m_fenceValue e + 1))
          by (unfold uint64_range, UINT64_MOD in *; lia).
        rewrite (wrap64_small (m_fenceValue e + 1 + 1))
          by (unfold uint64_range, UINT64_MOD in *; lia).
        replace (m_fenceValue e + 1 + 1) with (m_fenceValue e + 2) by lia.
        cbn. repeat split; reflexivity.
      * left. split; [reflexivity | ].
        cbn [state_of events_of fst snd].
        split; [exact Kf | unfold timeline_free; cbn; repeat split; reflexivity].
    + left. split; [reflexivity | ].
      cbn [state_of events_of fst snd].
      split; [destruct (scene_valid e); [exact Kf | reflexivity] | ].
      unfold timeline_free; cbn; repeat split; reflexivity.
Qed.

(** Over a run of calls with [n] denoised frames, the timeline carries the
    chain of [n] frames from the value the counter had at the start. *)
Lemma run_calls_chain (cs : list Callback) :
  forall e : Engine,
    0 <= m_fenceValue e ->
    m_fenceValue e + 2 * Z.of_nat (length cs) < UINT64_MOD ->
    let r := run_calls cs e in
    let v := m_fenceValue e in
    let n := denoised_frame_count cs e in
    m_fenceValue (state_of r) = v + 2 * Z.of_nat n
    /\ timeline_ops (events_of r) = chain_ops v n
    /\ denoise_invocations (events_of r) = chain_from v n
    /\ submission_signals (events_of r) = map fst (chain_from v n)
    /\ render_waits (events_of r) = map snd (chain_from v n)
    /\ signalled (events_of r) = count_from v (2 * n).
Proof.
  induction cs as [ | c cs IH]; intros e H0 Hlen; cbn zeta.
  - cbn. repeat split; try reflexivity. lia.
  - cbn [run_calls denoised_frame_count]. rewrite bind_run.
    cbn [state_of events_of fst snd].
    fold (state_of (dispatch c e)) (events_of (dispatch c e)).
    cbn [length] in Hlen.
    rewrite timeline_ops_app, denoise_invocations_app, submission_signals_app,
      render_waits_app, signalled_app.
    destruct (dispatch_chain c e H0 ltac:(lia))
      as [ (Hd & Hf & (Qs & Qb & Qd & Qw) & Qo)
         | (Hd & Hf & Hs & Hb & Hi & Hw & Ho) ];
      cbn zeta in *; rewrite Hd;
      (destruct (IH (state_of (dispatch c e)))
         as (Ef & Eo & Ed & Eb & Ew & Es);
       [rewrite Hf; lia | rewrite Hf; lia | ]);
      cbn zeta in *; rewrite Hf in *;
      fold (state_of (run_calls cs (state_of (dispatch c e))));
      fold (events_of (run_calls cs (state_of (dispatch c e)))).
    + rewrite Qs, Qb, Qd, Qw, Qo. cbn [app Nat.add].
      repeat split; assumption.
    + rewrite Hs, Hb, Hi, Hw, Ho, Ef, Eo, Ed, Eb, Ew, Es.
      change (1 + denoised_frame_count cs (state_of (dispatch c e)))%nat
        with (S (denoised_frame_count cs (state_of (dispatch c e)))).
      rewrite count_from_two. cbn [chain_ops chain_from map fst snd app].
      repeat split; try reflexivity. lia.
Qed.

(** C2. Over a session (short of the 2^63 calls that would exhaust the
    64-bit counter) in which [n] frames take the denoising branch: each of
    them, in turn, submits its first command buffer with the next value of
    the counter as signal, invokes the denoiser to wait on that value and to
    signal its successor, and registers the wait on the successor, and
    nothing else touches the timeline. So there are exactly [n] submissions
    and [n] invocations, (1, 2), (3, 4), ..., (2n-1, 2n); the k-th invocation
    waits on the value the k-th submission signals; no two invocations wait
    on the same value; and the values signalled are 1, 2, ..., 2n in this
    order, the counter ending at 2n: every value is fresh and none is reused
    or skipped. *)
Theorem timeline_values_in_step (ref0 : Camera) (cs : list Callback) :
  2 * Z.of_nat (length cs) < UINT64_MOD ->
  let started := state_of (onAttach (constructed ref0)) in
  let r := session ref0 cs in
  let log := events_of r in
  let invocations := denoise_invocations log in
  let n := denoised_frame_count cs started in
  length invocations = n
  /\ length (submission_signals log) = n
  /\ timeline_ops log = chain_ops 0 n
  /\ invocations = chain_from 0 n
  /\ submission_signals log = map fst invocations
  /\ NoDup (map fst invocations)
  /\ Forall (fun i => snd i = fst i + 1) invocations
  /\ render_waits log = map snd invocations
  /\ signalled log = count_from 0 (2 * n)
  /\ m_fenceValue (state_of r) = 2 * Z.of_nat n.
Proof.
  intros Hlen. cbn zeta. unfold session. rewrite bind_run.
  cbn [state_of events_of fst snd].
  fold (state_of (onAttach (constructed ref0)))
       (events_of (onAttach (constructed ref0))).
  destruct (onAttach_quiet (constructed ref0)) as [Af (Qs & Qb & Qd & Qw)].
  assert (Qo : timeline_ops (events_of (onAttach (constructed ref0))) = []).
  { rewrite onAttach_unfold. destruct NVP_SUPPORTS_OPTIX7; reflexivity. }
  cbn [constructed m_fenceValue] in Af.
  destruct (run_calls_chain cs (state_of (onAttach (constructed ref0))))
    as (Ef & Eo & Ed & Eb & Ew & Es); [rewrite Af; lia | rewrite Af; lia | ].
  cbn zeta in *. rewrite Af in *.
  set (n := denoised_frame_count cs (state_of (onAttach (constructed ref0)))) in *.
  set (rest := run_calls cs (state_of (onAttach (constructed ref0)))) in *.
  fold (state_of rest) (events_of rest).
  rewrite timeline_ops_app, denoise_invocations_app, submission_signals_app,
    render_waits_app, signalled_app, Qs, Qb, Qd, Qw, Qo. cbn [app].
  rewrite Ed, Eb, Ew, Es, Ef, Eo, length_map, chain_from_length.
  repeat split; try reflexivity.
  - apply chain_from_NoDup.
  - apply chain_from_successor.
Qed.

End Chain.

Lemma timeline_values_in_step_witness :
  (2 * Z.of_nat (length demo_calls) < UINT64_MOD
   /\ denoised_frame_count demo_calls
        (state_of (onAttach (@constructed optix_build 0))) = 4%nat)
  /\ (let started := state_of (onAttach (@constructed optix_build 0)) in
      let r := @session optix_build 0 demo_calls in
      let log := events_of r in
      let invocations := denoise_invocations log in
      let n := denoised_frame_count demo_calls started in
      length invocations = n
      /\ length (submission_signals log) = n
      /\ timeline_ops log = chain_ops 0 n
      /\ invocations = chain_from 0 n
      /\ submission_signals log = map fst invocations
      /\ NoDup (map fst invocations)
      /\ Forall (fun i => snd i = fst i + 1) invocations
      /\ render_waits log = map snd invocations
      /\ signalled log = count_from 0 (2 * n)
      /\ m_fenceValue (state_of r) = 2 * Z.of_nat n).
Proof.
  split; [split; reflexivity | ].
  apply (@timeline_values_in_step optix_build 0 demo_calls). reflexivity.
Defined.

(** ** What the registered wait holds back *)

Section Resume.
Context `{P : Platform}.

(** On every denoised frame the wait is registered with the stage mask
    COLOR_ATTACHMENT_OUTPUT, and none of what the second command buffer then
    records, the copy back from the denoiser and the tonemapper, lies in
    that stage. *)
Lemma denoised_frame_not_held_back (cycle : nat) (cam : Camera) (e : Engine) :
  frame_rendered cam e = true ->
  denoise_active cam e = true ->
  not_held_back None (events_of (onRender cycle cam e))
  = [CmdBufferToImage eGbufDenoised; CmdTonemap]
  /\ render_waits (events_of (onRender cycle cam e))
     = [wrap64 (wrap64 (m_fenceValue e + 1) + 1)].
Proof.
  intros Hr Ha. rewrite onRender_unfold, Hr, Ha. cbn [negb]. cbn zeta.
  split; reflexivity.
Qed.

End Resume.


(** ** One or two command buffers *)


(** ** Buffers are recreated with the orchestrator idle *)

Section Idle.
Context `{P : Platform}.






End Idle.

(** A session with resizes between denoised frames: the recreations, four of
    G-buffers and four of the denoiser's buffers, all with the orchestrator
    idle. *)
Example demo_calls_recreations :
  recreated_in Idle (events_of (@session optix_build 0
                                  (demo_calls ++ [CallResize 800 600;
                                                  CallUIRender
                                                    (@mkUiInput optix_build true (320, 200)
                                                       None None None false false false
                                                       None None)])))
  = [Idle; Idle; Idle; Idle; Idle; Idle; Idle; Idle].
Proof. reflexivity. Qed.

(** ** What a denoised frame is displayed from *)

(** C10, as stated, fails: [onUIRender] chooses the tonemapper's input from
    the frame index it finds, and [onRender] advances the index afterwards.
    In [lag_calls] frame 2 is denoised, and it is tonemapped from the raw
    result, chosen when the index was 1. *)
Lemma denoised_frame_shown_raw_counterexample :
  ~ Forall (fun shown => fst shown = true -> snd shown = Some eGbufDenoised)
           (tonemapped_from None (events_of (@session optix_build 0 lag_calls))).
Proof.
  intros H.
  assert (E : tonemapped_from None (events_of (@session optix_build 0 lag_calls))
              = [ (false, Some eGBufResult); (false, Some eGBufResult);
                  (true, Some eGBufResult) ]) by reflexivity.
  rewrite E in H.
  inversion H as [ | ? ? _ H1]; subst.
  inversion H1 as [ | ? ? _ H2]; subst.
  inversion H2 as [ | ? ? H3 _]; subst.
  specialize (H3 eq_refl). discriminate H3.
Qed.

(** ** The read-out and the display within one call *)

Section Panel.
Context `{P : Platform}.

(** X1. In a call of [onUIRender] that does not reset the frame index after
    the read-out is computed (no ray-tracing setting and no environment
    edit; the key M resets before), with the settings as the call leaves
    them (everyNFrames >= 1, maxFrames >= 0): the "Denoised Frame" read-out
    is an index, not -1, exactly when the call leaves the tonemapper reading
    the denoised G-buffer. *)
Theorem panel_readout_agrees (ui : UiInput) (e : Engine) :
  ui_keyM ui = true \/ ui_reset ui = false ->
  1 <= denoiseEveryNFrames (ui_settings ui (m_settings e)) ->
  0 <= maxFrames (ui_settings ui (m_settings e)) ->
  (panel_denoised_frame ui e <> -1 <->
   selected_input (events_of (onUIRender ui e)) = Some eGbufDenoised).
Proof.
  intros Hk Hn Hm.
  pose proof (denoised_frame_shown (ui_settings ui (m_settings e))) as Shown.
  unfold panel_denoised_frame.
  rewrite onUIRender_unfold. cbn zeta. cbn [events_of snd].
  destruct (ui_keyM ui) eqn:K; cbn [when].
  - rewrite onResize_unfold. cbn [state_of events_of fst snd m_settings m_frame
                                   set_frame set_viewSize].
    replace (ui_reset ui) with true by (unfold ui_reset; rewrite K; reflexivity).
    rewrite (Shown (-1) Hn Hm).
    destruct (ui_blend ui), NVP_SUPPORTS_OPTIX7, (scene_valid e);
      cbn;
      destruct (showDenoisedImage (ui_settings ui (m_settings e)) (-1));
      cbn; split; congruence.
  - destruct Hk as [Hk | Hk]; [discriminate Hk | ]. rewrite Hk.
    cbn [state_of ret fst snd app].
    rewrite (Shown (m_frame e) Hn Hm).
    destruct (ui_blend ui); cbn;
      destruct (showDenoisedImage (ui_settings ui (m_settings e)) (m_frame e));
      cbn; split; congruence.
Qed.

End Panel.

Lemma panel_readout_agrees_witness :
  (ui_reset cadence_only_ui = false
   /\ 1 <= denoiseEveryNFrames (ui_settings cadence_only_ui (m_settings final_engine))
   /\ 0 <= maxFrames (ui_settings cadence_only_ui (m_settings final_engine))
   /\ panel_denoised_frame cadence_only_ui final_engine = 9)
  /\ (panel_denoised_frame cadence_only_ui final_engine <> -1 <->
      selected_input (events_of (onUIRender cadence_only_ui final_engine))
      = Some eGbufDenoised).
Proof.
  split; [repeat split; try reflexivity; cbn; lia | ].
  apply (@panel_readout_agrees optix_build cadence_only_ui final_engine);
    [right; reflexivity | cbn; lia | cbn; lia].
Defined.

(** ** Sizes through [glm::vec2] *)

Lemma float_of_uint32_exact (n : Z) : n < 2 ^ 24 -> float_of_uint32 n = n.
Proof.
  intros H. unfold float_of_uint32.
  destruct (Z.ltb_spec n (2 ^ 24)); [reflexivity | lia].
Qed.

Example float_of_uint32_rounds :
  map float_of_uint32 [16777216; 16777217; 16777218; 16777219; 4294967295]
  = [16777216; 16777216; 16777218; 16777220; 4294967296].
Proof. reflexivity. Qed.

(** For sizes below 2^24 a resize recreates the buffers at exactly the
    size asked for. *)
Lemma onResize_exact_sizes `{P : Platform} (w h : Z) (e : Engine) :
  0 <= w < 2 ^ 24 -> 0 <= h < 2 ^ 24 ->
  reallocations (events_of (onResize w h e))
  = CreateGBuffers w h
    :: (if NVP_SUPPORTS_OPTIX7 then [AllocateBuffers w h] else [])
  /\ m_viewSize (state_of (onResize w h e)) = (w, h).
Proof.
  intros Hw Hh. rewrite onResize_unfold.
  rewrite !float_of_uint32_exact by lia.
  unfold uint32_of_float. rewrite !Z.mod_small by lia.
  destruct NVP_SUPPORTS_OPTIX7, (scene_valid e); split; reflexivity.
Qed.
